(** * MoodTune backend: mood detection and song recommendation

    A shallow embedding of [backend.py]: the keyword-based [MoodDetector], the
    catalog lookup of [MusicRecommender] and the pipeline of [MoodTuneAPI],
    followed by the properties proved about them.

    Python values are modelled as follows.
    - [str]: a list of Unicode code points ([N]); dictionary keys and keywords
      are written as Rocq strings and read as code points with [of_string].
    - [int]: [Z].  [float]: Rocq's primitive binary64 floats.
    - [dict]: an association list in insertion order (Python dictionaries
      iterate in insertion order, and the order matters to [max]).
    - a raised exception: [None]. *)

From Stdlib Require Import ZArith NArith List Bool String Ascii Lia.
From Stdlib Require Import Floats Uint63.
Import ListNotations.

Set Warnings "-inexact-float,-register-all".

(** ** Python strings *)

Module PyStr.

Definition codepoint := N.
Definition str := list codepoint.

Definition of_string (s : string) : str :=
  map N_of_ascii (list_ascii_of_string s).

(** CPython's Unicode database for the characters outside ASCII.  It belongs to
    the interpreter, not to the repository, and is taken as a parameter:
    [lower_full] is [str.lower] on a string that has a non-ASCII character
    (a whole-string function: the lowercase of a capital sigma depends on its
    context), [isalnum_uni] and [isspace_uni] classify one non-ASCII code
    point. *)
Record UnicodeData := {
  lower_full : str -> str;
  isalnum_uni : codepoint -> bool;
  isspace_uni : codepoint -> bool
}.

Definition is_ascii (c : codepoint) : bool := (c <? 128)%N.

Definition ascii_lower (c : codepoint) : codepoint :=
  if ((65 <=? c) && (c <=? 90))%N then (c + 32)%N else c.

(** [s.lower()]: CPython lowers an all-ASCII string byte by byte and goes
    through the Unicode database otherwise. *)
Definition lower (U : UnicodeData) (s : str) : str :=
  if forallb is_ascii s then map ascii_lower s else lower_full U s.

Definition ascii_isdigit (c : codepoint) : bool := ((48 <=? c) && (c <=? 57))%N.
Definition ascii_isupper (c : codepoint) : bool := ((65 <=? c) && (c <=? 90))%N.
Definition ascii_islower (c : codepoint) : bool := ((97 <=? c) && (c <=? 122))%N.

Definition ascii_isalnum (c : codepoint) : bool :=
  ascii_isdigit c || ascii_isupper c || ascii_islower c.

(** Tab, line feed, vertical tab, form feed, carriage return, the four
    separators FS GS RS US, and the space. *)
Definition ascii_isspace (c : codepoint) : bool :=
  ((9 <=? c) && (c <=? 13))%N || ((28 <=? c) && (c <=? 32))%N.

Definition isalnum (U : UnicodeData) (c : codepoint) : bool :=
  if is_ascii c then ascii_isalnum c else isalnum_uni U c.

Definition isspace (U : UnicodeData) (c : codepoint) : bool :=
  if is_ascii c then ascii_isspace c else isspace_uni U c.

(** The regular expression class [\w] of a [str] pattern: alphanumeric or the
    underscore.  [\s] is [isspace]. *)
Definition underscore : codepoint := 95%N.
Definition space : codepoint := 32%N.

Definition is_word (U : UnicodeData) (c : codepoint) : bool :=
  isalnum U c || (c =? underscore)%N.

(** [re.sub(r'[^\w\s]', repl, s)] for a one-character [repl]: every character
    that is neither [\w] nor [\s] is one match. *)
Definition sub_not_word_space (U : UnicodeData) (repl : codepoint) (s : str) : str :=
  map (fun c => if is_word U c || isspace U c then c else repl) s.

Fixpoint starts_with (k t : str) : bool :=
  match k, t with
  | [], _ => true
  | _ :: _, [] => false
  | a :: k', b :: t' => (a =? b)%N && starts_with k' t'
  end.

(** [k in t] on strings: [k] occurs in [t] at some offset. *)
Fixpoint contains (k t : str) : bool :=
  starts_with k t ||
  match t with
  | [] => false
  | _ :: t' => contains k t'
  end.

End PyStr.

(** ** Python floats *)

Module PyFloat.

(** The float of an [int]; exact below [2^53], which covers every score. *)
Definition of_int (z : Z) : float :=
  if (z <? 0)%Z then PrimFloat.opp (PrimFloat.of_uint63 (Uint63.of_Z (- z)))
  else PrimFloat.of_uint63 (Uint63.of_Z z).

(** [a / b] on two [int]s: the correctly rounded quotient. *)
Definition truediv (a b : Z) : float := PrimFloat.div (of_int a) (of_int b).

(** [min(a, b)]: the first argument unless the second is smaller. *)
Definition py_min (a b : float) : float := if PrimFloat.ltb b a then b else a.

Definition round_half_even (num den : Z) : Z :=
  let q := (num / den)%Z in
  let r := (num mod den)%Z in
  match (2 * r ?= den)%Z with
  | Lt => q
  | Gt => (q + 1)%Z
  | Eq => if Z.even q then q else (q + 1)%Z
  end.

(** The exact value of [x] times [10^ndigits], rounded to an integer, ties to
    even; [None] for an infinity or a NaN. *)
Definition scaled_round (x : float) (ndigits : Z) : option Z :=
  match Prim2SF x with
  | S754_zero _ => Some 0%Z
  | S754_finite s m e =>
      let n :=
        if (0 <=? e)%Z then (Zpos m * 10 ^ ndigits * 2 ^ e)%Z
        else round_half_even (Zpos m * 10 ^ ndigits) (2 ^ (- e)) in
      Some (if s then (- n)%Z else n)
  | _ => None
  end.

(** [round(x, ndigits)] for [ndigits >= 0]: CPython rounds the exact binary
    value to [ndigits] decimals and returns the float nearest to that decimal;
    infinities and NaNs are returned unchanged. *)
Definition py_round (x : float) (ndigits : Z) : float :=
  match scaled_round x ndigits with
  | Some n => PrimFloat.div (of_int n) (of_int (10 ^ ndigits))
  | None => x
  end.

End PyFloat.

(** ** Python dictionaries *)

Module PyDict.

Definition dict (V : Type) := list (string * V).

Definition keys {V} (d : dict V) : list string := map fst d.
Definition values {V} (d : dict V) : list V := map snd d.

(** [d[k]], [None] for a [KeyError]. *)
Fixpoint lookup {V} (d : dict V) (k : string) : option V :=
  match d with
  | [] => None
  | (k', v) :: d' => if String.eqb k k' then Some v else lookup d' k
  end.

(** [d.get(k, default)]. *)
Definition get {V} (d : dict V) (k : string) (default : V) : V :=
  match lookup d k with
  | Some v => v
  | None => default
  end.

(** [any(vs)] on integers: some element is not zero. *)
Definition any (vs : list Z) : bool := existsb (fun v => negb (v =? 0)%Z) vs.

(** [sum(vs)]. *)
Definition sum (vs : list Z) : Z := fold_left Z.add vs 0%Z.

(** One step of [max]: the running maximum changes only for a strictly
    greater key. *)
Definition max_step (best : string * Z) (item : string * Z) : string * Z :=
  if (snd best <? snd item)%Z then item else best.

(** [max(d, key=d.get)]: iterating [d] yields its keys in insertion order and
    [d.get] gives each key its own value, so the maximum runs over the items
    and compares their values; [None] is the [ValueError] on an empty
    dictionary. *)
Definition max_key (d : dict Z) : option string :=
  match d with
  | [] => None
  | item :: rest => Some (fst (fold_left max_step rest item))
  end.

(** [xs[:limit]]: a negative [limit] counts from the end. *)
Definition slice_to {A} (xs : list A) (limit : Z) : list A :=
  if (limit <? 0)%Z
  then firstn (Z.to_nat (Z.max 0 (Z.of_nat (List.length xs) + limit))) xs
  else firstn (Z.to_nat limit) xs.

End PyDict.

(** Sequencing of computations that may raise. *)
Notation "x <- e ;; k" :=
  (match e with Some x => k | None => None end)
  (at level 61, e at next level, right associativity).

(** ** [class MoodDetector] *)

Module MoodDetector.
Import PyStr PyFloat PyDict.

(** The three keyword lists of one emotion (the keys ['primary'],
    ['secondary'] and ['intensity'] of its inner dictionary). *)
Record KeywordSets := mkKeywordSets {
  kw_primary : list string;
  kw_secondary : list string;
  kw_intensity : list string
}.

(** [self.emotion_keywords], in the order of the literal. *)
Definition emotion_keywords : dict KeywordSets :=
  [
    ("happy",
     mkKeywordSets
       ["happy"; "joy"; "excited"; "great"; "amazing"; "wonderful"; "cheerful"; "delighted"]
       ["good"; "nice"; "pleased"; "satisfied"; "content"; "upbeat"]
       ["ecstatic"; "thrilled"; "overjoyed"; "euphoric"]);
    ("sad",
     mkKeywordSets
       ["sad"; "depressed"; "down"; "lonely"; "heartbroken"; "melancholy"; "miserable"]
       ["blue"; "gloomy"; "disappointed"; "hurt"; "upset"]
       ["devastated"; "crushed"; "despondent"; "hopeless"]);
    ("energetic",
     mkKeywordSets
       ["energetic"; "pumped"; "hyper"; "motivated"; "active"; "powerful"]
       ["workout"; "exercise"; "run"; "dance"; "move"]
       ["explosive"; "unstoppable"; "charged"; "electrified"]);
    ("calm",
     mkKeywordSets
       ["calm"; "peaceful"; "relax"; "chill"; "tranquil"; "serene"]
       ["meditate"; "zen"; "quiet"; "still"; "composed"]
       ["blissful"; "centered"; "harmonious"]);
    ("romantic",
     mkKeywordSets
       ["love"; "romantic"; "crush"; "date"; "relationship"; "tender"]
       ["affection"; "caring"; "devoted"; "intimate"]
       ["passionate"; "smitten"; "infatuated"; "adoring"]);
    ("angry",
     mkKeywordSets
       ["angry"; "mad"; "furious"; "rage"; "frustrated"; "annoyed"]
       ["irritated"; "bothered"; "pissed"; "livid"]
       ["enraged"; "incensed"; "outraged"; "seething"]);
    ("anxious",
     mkKeywordSets
       ["anxious"; "nervous"; "worried"; "stressed"; "tense"; "overwhelmed"]
       ["uneasy"; "restless"; "concerned"; "troubled"]
       ["panicked"; "terrified"; "frantic"; "distressed"]);
    ("nostalgic",
     mkKeywordSets
       ["nostalgic"; "memories"; "remember"; "past"; "throwback"; "reminisce"]
       ["missing"; "longing"; "sentimental"; "wistful"]
       ["yearning"; "pining"]);
    ("confident",
     mkKeywordSets
       ["confident"; "powerful"; "strong"; "fierce"; "unstoppable"; "boss"]
       ["capable"; "determined"; "bold"; "assured"]
       ["invincible"; "dominant"; "fearless"; "triumphant"])
  ]%string.

(** The dictionary returned by [detect_emotion]. *)
Record EmotionResult := mkEmotionResult {
  emotion : string;
  confidence : float;
  intensity : string;
  all_scores : dict Z
}.

(** One [for keyword in ...: if keyword in text_clean: score += weight] loop,
    started from the running [score]. *)
Definition add_hits (weight : Z) (keywords : list string) (text_clean : str)
    (score : Z) : Z :=
  fold_left
    (fun score keyword =>
       if contains (of_string keyword) text_clean then (score + weight)%Z else score)
    keywords score.

(** The body of the loop over the emotions: primary keywords weigh 3,
    secondary 1, intensity 5. *)
Definition emotion_score (keyword_sets : KeywordSets) (text_clean : str) : Z :=
  let score := 0%Z in
  let score := add_hits 3 (kw_primary keyword_sets) text_clean score in
  let score := add_hits 1 (kw_secondary keyword_sets) text_clean score in
  let score := add_hits 5 (kw_intensity keyword_sets) text_clean score in
  score.

(** [scores] after the loop over [table.items()]: one entry per emotion, in
    the order of the table (the keys of a dictionary are distinct, so each
    [scores[emotion] = score] adds an entry). *)
Definition score_table (table : dict KeywordSets) (text_clean : str) : dict Z :=
  map (fun item => (fst item, emotion_score (snd item) text_clean)) table.

(** [text_clean]: the text lowered, then every character that is neither
    [\w] nor [\s] replaced by a space. *)
Definition normalize (U : UnicodeData) (text : str) : str :=
  let text_lower := lower U text in
  sub_not_word_space U space text_lower.

Definition intensity_of (max_score : Z) : string :=
  if (5 <=? max_score)%Z then "high"
  else if (3 <=? max_score)%Z then "medium"
  else "low".

Definition detect_emotion_with (table : dict KeywordSets) (U : UnicodeData)
    (text : str) : option EmotionResult :=
  let text_clean := normalize U text in
  let scores := score_table table text_clean in
  if negb (any (values scores)) then
    Some {| emotion := "calm";
            confidence := 0.5;
            intensity := "low";
            all_scores := scores |}
  else
    max_emotion <- max_key scores ;;
    max_score <- lookup scores max_emotion ;;
    let total_score := sum (values scores) in
    let confidence := py_min (truediv max_score (total_score + 1)) 1.0 in
    Some {| emotion := max_emotion;
            confidence := py_round confidence 2;
            intensity := intensity_of max_score;
            all_scores := scores |}.

Definition detect_emotion : UnicodeData -> str -> option EmotionResult :=
  detect_emotion_with emotion_keywords.

End MoodDetector.

(** ** [class MusicRecommender] *)

Module MusicRecommender.
Import PyDict.

Record Song := mkSong {
  title : string;
  artist : string;
  year : Z;
  genre : string;
  energy : float;
  valence : float;
  tags : list string
}.

(** [self.song_database], in the order of the literal. *)
Definition song_database : dict (list Song) :=
  [
    ("happy",
     [
      mkSong "Good Vibrations" "The Beach Boys" 1966 "Pop" 0.8 0.9
        ["Classic"; "Feel-good"; "Upbeat"];
      mkSong "Walking on Sunshine" "Katrina and the Waves" 1983 "Pop" 0.9 0.95
        ["80s"; "Pop"; "Energetic"];
      mkSong "Happy" "Pharrell Williams" 2013 "Pop" 0.8 0.9
        ["Pop"; "Dance"; "Positive"];
      mkSong "Don't Stop Me Now" "Queen" 1978 "Rock" 0.95 0.85
        ["Rock"; "Classic"; "Powerful"];
      mkSong "I Wanna Dance with Somebody" "Whitney Houston" 1987 "Pop" 0.9 0.9
        ["Pop"; "Dance"; "80s"] ]);
    ("sad",
     [
      mkSong "Someone Like You" "Adele" 2011 "Pop" 0.3 0.2
        ["Ballad"; "Emotional"; "Piano"];
      mkSong "The Night We Met" "Lord Huron" 2015 "Indie" 0.4 0.3
        ["Indie"; "Melancholic"; "Acoustic"];
      mkSong "Hurt" "Johnny Cash" 2002 "Country" 0.3 0.15
        ["Country"; "Deep"; "Emotional"];
      mkSong "Mad World" "Gary Jules" 2001 "Alternative" 0.2 0.2
        ["Alternative"; "Somber"; "Reflective"];
      mkSong "Fix You" "Coldplay" 2005 "Rock" 0.5 0.4
        ["Rock"; "Healing"; "Hope"] ]);
    ("energetic",
     [
      mkSong "Eye of the Tiger" "Survivor" 1982 "Rock" 0.95 0.75
        ["Rock"; "Motivational"; "80s"];
      mkSong "Lose Yourself" "Eminem" 2002 "Hip-Hop" 0.9 0.7
        ["Hip-Hop"; "Intense"; "Powerful"];
      mkSong "Thunderstruck" "AC/DC" 1990 "Rock" 0.95 0.8
        ["Rock"; "High-energy"; "Classic"];
      mkSong "Till I Collapse" "Eminem ft. Nate Dogg" 2002 "Hip-Hop" 0.9 0.75
        ["Hip-Hop"; "Workout"; "Intense"];
      mkSong "Pump It" "The Black Eyed Peas" 2006 "Hip-Hop" 0.95 0.8
        ["Hip-Hop"; "Dance"; "Party"] ]);
    ("calm",
     [
      mkSong "Weightless" "Marconi Union" 2011 "Ambient" 0.1 0.6
        ["Ambient"; "Meditation"; "Peaceful"];
      mkSong "Clair de Lune" "Claude Debussy" 1905 "Classical" 0.2 0.7
        ["Classical"; "Piano"; "Serene"];
      mkSong "Breathe Me" "Sia" 2004 "Alternative" 0.3 0.5
        ["Ambient"; "Gentle"; "Soothing"];
      mkSong "Holocene" "Bon Iver" 2011 "Indie" 0.3 0.6
        ["Indie"; "Atmospheric"; "Calm"];
      mkSong "Intro" "The xx" 2009 "Indie" 0.25 0.65
        ["Indie"; "Minimal"; "Dreamy"] ]);
    ("romantic",
     [
      mkSong "Perfect" "Ed Sheeran" 2017 "Pop" 0.4 0.8
        ["Pop"; "Love"; "Ballad"];
      mkSong "All of Me" "John Legend" 2013 "R&B" 0.35 0.75
        ["R&B"; "Piano"; "Tender"];
      mkSong "Thinking Out Loud" "Ed Sheeran" 2014 "Pop" 0.5 0.8
        ["Pop"; "Romantic"; "Sweet"];
      mkSong "Can't Help Falling in Love" "Elvis Presley" 1961 "Pop" 0.3 0.85
        ["Classic"; "Timeless"; "Love"];
      mkSong "At Last" "Etta James" 1960 "Jazz" 0.4 0.9
        ["Jazz"; "Soulful"; "Classic"] ]);
    ("angry",
     [
      mkSong "Break Stuff" "Limp Bizkit" 1999 "Nu-Metal" 0.95 0.3
        ["Nu-Metal"; "Aggressive"; "Raw"];
      mkSong "Killing in the Name" "Rage Against the Machine" 1992 "Rock" 0.9 0.25
        ["Rock"; "Protest"; "Intense"];
      mkSong "In the End" "Linkin Park" 2000 "Rock" 0.8 0.35
        ["Rock"; "Emotional"; "Powerful"];
      mkSong "Last Resort" "Papa Roach" 2000 "Nu-Metal" 0.85 0.3
        ["Nu-Metal"; "Intense"; "Cathartic"];
      mkSong "Bodies" "Drowning Pool" 2001 "Metal" 0.95 0.4
        ["Metal"; "Aggressive"; "Heavy"] ]);
    ("anxious",
     [
      mkSong "Breathe" "Pink Floyd" 1973 "Rock" 0.4 0.5
        ["Rock"; "Calming"; "Progressive"];
      mkSong "Stressed Out" "Twenty One Pilots" 2015 "Alternative" 0.6 0.4
        ["Alternative"; "Relatable"; "Modern"];
      mkSong "Everybody Hurts" "R.E.M." 1992 "Rock" 0.3 0.45
        ["Rock"; "Comforting"; "Supportive"];
      mkSong "The Scientist" "Coldplay" 2002 "Alternative" 0.4 0.5
        ["Alternative"; "Reflective"; "Soothing"];
      mkSong "Let It Be" "The Beatles" 1970 "Rock" 0.4 0.6
        ["Classic"; "Reassuring"; "Peaceful"] ]);
    ("nostalgic",
     [
      mkSong "Summer of '69" "Bryan Adams" 1984 "Rock" 0.75 0.7
        ["Rock"; "Classic"; "Throwback"];
      mkSong "Wonderwall" "Oasis" 1995 "Britpop" 0.6 0.65
        ["Britpop"; "90s"; "Iconic"];
      mkSong "Dream On" "Aerosmith" 1973 "Rock" 0.7 0.6
        ["Rock"; "Classic"; "Timeless"];
      mkSong "Tears in Heaven" "Eric Clapton" 1992 "Ballad" 0.3 0.4
        ["Ballad"; "Emotional"; "Classic"];
      mkSong "The Sound of Silence" "Simon & Garfunkel" 1964 "Folk" 0.3 0.5
        ["Folk"; "60s"; "Reflective"] ]);
    ("confident",
     [
      mkSong "Stronger" "Kanye West" 2007 "Hip-Hop" 0.85 0.75
        ["Hip-Hop"; "Powerful"; "Motivational"];
      mkSong "Roar" "Katy Perry" 2013 "Pop" 0.8 0.8
        ["Pop"; "Empowering"; "Uplifting"];
      mkSong "We Will Rock You" "Queen" 1977 "Rock" 0.9 0.75
        ["Rock"; "Anthem"; "Powerful"];
      mkSong "Survivor" "Destiny's Child" 2001 "R&B" 0.75 0.8
        ["R&B"; "Empowering"; "Strong"];
      mkSong "Lose Control" "Meduza, Becky Hill" 2019 "Dance" 0.9 0.85
        ["Dance"; "Confident"; "Energetic"] ])
  ]%string.

(** [get_recommendations] over a database [db]: the default of [db.get] is
    evaluated first, and [db['calm']] raises when the key is absent. *)
Definition get_recommendations_in (db : dict (list Song)) (mood : string)
    (limit : Z) : option (list Song) :=
  default <- lookup db "calm" ;;
  let songs := get db mood default in
  Some (slice_to songs limit).

Definition get_recommendations : string -> Z -> option (list Song) :=
  get_recommendations_in song_database.

Definition get_all_moods : list string := keys song_database.

End MusicRecommender.

(** ** [class MoodTuneAPI] *)

Module MoodTuneAPI.
Import PyStr PyDict.

Record Response := mkResponse {
  user_input : str;
  detected_mood : string;
  confidence : float;
  intensity : string;
  recommendations : list MusicRecommender.Song;
  emotion_scores : dict Z
}.

Definition analyze_and_recommend (U : UnicodeData) (user_text : str)
    (num_songs : Z) : option Response :=
  emotion_result <- MoodDetector.detect_emotion U user_text ;;
  recommendations <-
    MusicRecommender.get_recommendations
      (MoodDetector.emotion emotion_result) num_songs ;;
  Some {| user_input := user_text;
          detected_mood := MoodDetector.emotion emotion_result;
          confidence := MoodDetector.confidence emotion_result;
          intensity := MoodDetector.intensity emotion_result;
          recommendations := recommendations;
          emotion_scores := MoodDetector.all_scores emotion_result |}.

End MoodTuneAPI.

(** A database that knows no character outside ASCII.  The texts evaluated
    below are ASCII, where every database gives the same result. *)
Definition ascii_only : PyStr.UnicodeData :=
  {| PyStr.lower_full := fun s => s;
     PyStr.isalnum_uni := fun _ => false;
     PyStr.isspace_uni := fun _ => false |}.

Import PyStr PyFloat PyDict MoodDetector MusicRecommender.

(** ** Notions used by the statements *)

(** The emotions in the order of the [emotion_keywords] literal. *)
Definition mood_order : list string :=
  ["happy"; "sad"; "energetic"; "calm"; "romantic"; "angry"; "anxious";
   "nostalgic"; "confident"]%string.

(** How many of [keywords] occur in [text_clean]. *)
Definition hits (keywords : list string) (text_clean : str) : Z :=
  Z.of_nat
    (List.length (filter (fun kw => contains (of_string kw) text_clean) keywords)).

Definition all_keywords (ks : KeywordSets) : list string :=
  kw_primary ks ++ kw_secondary ks ++ kw_intensity ks.

(** Some keyword of some emotion occurs in [text_clean]. *)
Definition some_keyword_matches (table : dict KeywordSets) (text_clean : str) : bool :=
  existsb
    (fun item =>
       existsb (fun kw => contains (of_string kw) text_clean) (all_keywords (snd item)))
    table.

(** The score dictionary [detect_emotion] builds for a text. *)
Definition scores_of (table : dict KeywordSets) (U : UnicodeData) (text : str) : dict Z :=
  score_table table (normalize U text).

(** The greatest score an emotion can reach: every keyword of it matched. *)
Definition weight_bound (ks : KeywordSets) : Z :=
  3 * Z.of_nat (List.length (kw_primary ks))
  + Z.of_nat (List.length (kw_secondary ks))
  + 5 * Z.of_nat (List.length (kw_intensity ks)).

(** The greatest value of a score dictionary (scores are never negative). *)
Definition max_value (vs : list Z) : Z := fold_right Z.max 0%Z vs.

(** [best] is the first entry of [d] with the greatest value. *)
Definition first_maximum (d : dict Z) (best : string) (s : Z) : Prop :=
  exists before after,
    d = before ++ (best, s) :: after /\
    Forall (fun item => (snd item < s)%Z) before /\
    Forall (fun item => (snd item <= s)%Z) after.

(** Punctuation is what the normalization replaces; a separator is
    punctuation or whitespace. *)
Definition is_punctuation (U : UnicodeData) (c : codepoint) : bool :=
  negb (is_word U c || isspace U c).

Definition is_separator (U : UnicodeData) (c : codepoint) : bool :=
  negb (is_word U c) || isspace U c.

(** The character [normalize] writes for [c]. *)
Definition kept (U : UnicodeData) (c : codepoint) : codepoint :=
  if is_word U c || isspace U c then c else space.

(** The text cut at every separator; the pieces may be empty. *)
Fixpoint split_separators (U : UnicodeData) (t : str) : list str :=
  match t with
  | [] => [[]]
  | c :: t' =>
      if is_separator U c then [] :: split_separators U t'
      else
        match split_separators U t' with
        | w :: ws => (c :: w) :: ws
        | [] => [[c]]
        end
  end.

(** The words of a text: its maximal runs of characters that are not
    separators. *)
Definition words (U : UnicodeData) (t : str) : list str :=
  filter (fun w => negb (Nat.eqb (List.length w) 0)) (split_separators U t).

(** The letters and digits of a text, in order. *)
Definition alnum_sequence (U : UnicodeData) (t : str) : str :=
  filter (isalnum U) t.

Definition zrange (lo : Z) (n : nat) : list Z :=
  map (fun i => (lo + Z.of_nat i)%Z) (seq 0 n).

(** What is checked of the confidence computed from a winning score [w] and
    a total [total]: it is [n / 100] for an integer [n] nearest to
    [100 * w / (total + 1)], and lies between 0 and 1. *)
Definition confidence_of (w total : Z) : float :=
  py_round (py_min (truediv w (total + 1)) 1.0) 2.

Definition nearest_hundredth (n w total : Z) : Prop :=
  (0 <= n <= 100)%Z /\ (2 * Z.abs (100 * w - n * (total + 1)) <= total + 1)%Z.

Definition confidence_check (w total : Z) : bool :=
  match scaled_round (py_min (truediv w (total + 1)) 1.0) 2 with
  | Some n =>
      (0 <=? n)%Z && (n <=? 100)%Z
      && (2 * Z.abs (100 * w - n * (total + 1)) <=? total + 1)%Z
      && PrimFloat.leb 0 (truediv n 100) && PrimFloat.leb (truediv n 100) 1
  | None => false
  end.

Definition confidence_table_check (max_w max_total : nat) : bool :=
  forallb
    (fun w => forallb (fun total => confidence_check w total)
                (zrange w (max_total - Z.to_nat w + 1)))
    (zrange 1 max_w).

(** The normalization as the specification words it: every character that
    is not a letter, a digit or whitespace becomes a space.  It is compared
    with [normalize] below. *)
Definition normalize_as_specified (U : UnicodeData) (text : str) : str :=
  map (fun c => if isalnum U c || isspace U c then c else space) (lower U text).

(** A keyword made of one or more lowercase ASCII letters, as all the
    keywords of the repository are. *)
Definition plain_keyword (kw : string) : bool :=
  negb (Nat.eqb (List.length (of_string kw)) 0)
  && forallb ascii_islower (of_string kw).

Definition plain_table (table : dict KeywordSets) : bool :=
  forallb (fun item => forallb plain_keyword (all_keywords (snd item))) table.

(** Two characters a keyword search cannot tell apart: equal, or neither a
    lowercase ASCII letter. *)
Definition same_for_keywords (a b : codepoint) : Prop :=
  a = b \/ (ascii_islower a = false /\ ascii_islower b = false).

(** ** JSON values, as [json.loads] and Flask's [get_json] give them *)

Module PyJson.
Import PyStr.

Inductive json : Type :=
| JNull
| JBool (b : bool)
| JInt (n : Z)
| JFloat (x : float)
| JStr (s : str)
| JList (items : list json)
| JDict (items : list (str * json)).

Fixpoint str_eqb (a b : str) : bool :=
  match a, b with
  | [], [] => true
  | x :: a', y :: b' => (x =? y)%N && str_eqb a' b'
  | _, _ => false
  end.

(** The truth value of [v] in [if v] and [not v]. *)
Definition truthy (v : json) : bool :=
  match v with
  | JNull => false
  | JBool b => b
  | JInt n => negb (n =? 0)%Z
  | JFloat x => negb (PrimFloat.eqb x 0)
  | JStr s => negb (Nat.eqb (List.length s) 0)
  | JList items => negb (Nat.eqb (List.length items) 0)
  | JDict items => negb (Nat.eqb (List.length items) 0)
  end.

Fixpoint jlookup (items : list (str * json)) (key : str) : option json :=
  match items with
  | [] => None
  | (k, v) :: items' => if str_eqb key k then Some v else jlookup items' key
  end.

(** [v[key]] for a string [key]: a [KeyError] on a dictionary without the
    key and a [TypeError] on anything but a dictionary are both [None]. *)
Definition getitem (v : json) (key : string) : option json :=
  match v with
  | JDict items => jlookup items (of_string key)
  | _ => None
  end.

(** [v.get(key, default)]: only a dictionary has the method. *)
Definition get (v : json) (key : string) (default : json) : option json :=
  match v with
  | JDict items =>
      Some (match jlookup items (of_string key) with
            | Some x => x
            | None => default
            end)
  | _ => None
  end.

(** [key in v] for a string [key]: a key of a dictionary, an element of a
    list, a substring of a string; a [TypeError] otherwise. *)
Definition has (v : json) (key : string) : option bool :=
  match v with
  | JDict items =>
      Some (match jlookup items (of_string key) with Some _ => true | None => false end)
  | JList items =>
      Some (existsb (fun x => match x with
                              | JStr s => str_eqb s (of_string key)
                              | _ => false
                              end) items)
  | JStr s => Some (contains (of_string key) s)
  | _ => None
  end.

(** [for x in v]: the elements of a list, the keys of a dictionary, the
    characters of a string; a [TypeError] otherwise. *)
Definition iterate (v : json) : option (list json) :=
  match v with
  | JList items => Some items
  | JDict items => Some (map (fun kv => JStr (fst kv)) items)
  | JStr s => Some (map (fun c => JStr [c]) s)
  | _ => None
  end.

(** [v[0]]: the [IndexError], [KeyError] and [TypeError] cases are [None]
    (a dictionary of JSON has no integer key). *)
Definition first_item (v : json) : option json :=
  match v with
  | JList (x :: _) => Some x
  | JStr (c :: _) => Some (JStr [c])
  | _ => None
  end.

(** [v[:n]]: strings and lists can be sliced, nothing else. *)
Definition slice (v : json) (n : nat) : option json :=
  match v with
  | JStr s => Some (JStr (firstn n s))
  | JList items => Some (JList (firstn n items))
  | _ => None
  end.

(** [isinstance(v, int)], with the integer: [bool] is a subclass of [int],
    [True] is 1 and [False] is 0. *)
Definition as_int (v : json) : option Z :=
  match v with
  | JInt n => Some n
  | JBool b => Some (if b then 1%Z else 0%Z)
  | _ => None
  end.

Fixpoint intercalate (sep : str) (parts : list str) : str :=
  match parts with
  | [] => []
  | [s] => s
  | s :: rest => s ++ sep ++ intercalate sep rest
  end.

(** [sep.join(parts)]: a [TypeError] when a part is not a string. *)
Definition join (sep : string) (parts : list json) : option str :=
  match
    fold_right
      (fun part acc =>
         match part, acc with
         | JStr s, Some strs => Some (s :: strs)
         | _, _ => None
         end)
      (Some []) parts
  with
  | Some strs => Some (intercalate (of_string sep) strs)
  | None => None
  end.

(** Running [f] on every element, raising when [f] raises. *)
Fixpoint for_each {A B} (f : A -> option B) (xs : list A) : option (list B) :=
  match xs with
  | [] => Some []
  | x :: xs' =>
      match f x with
      | None => None
      | Some y =>
          match for_each f xs' with
          | None => None
          | Some ys => Some (y :: ys)
          end
      end
  end.

End PyJson.

(** ** [api_server.py] *)

Module ApiServer.
Import PyStr PyDict PyJson.

(** What a view returns: [jsonify(body), 200], [jsonify({'error': ...}), 400],
    or the answer of the [except Exception] branch, whose message (the text
    of the exception) is not modelled.  Logging is not modelled either. *)
Inductive response (A : Type) : Type :=
| Ok (body : A)
| BadRequest (error : string)
| InternalError.

Arguments Ok {A} body.
Arguments BadRequest {A} error.
Arguments InternalError {A}.

Definition status_code {A} (r : response A) : Z :=
  match r with
  | Ok _ => 200%Z
  | BadRequest _ => 400%Z
  | InternalError => 500%Z
  end.

(** [analyze_mood], on what [request.get_json()] gives: [None] when it
    raises, the parsed body otherwise. *)
Definition analyze_mood (U : UnicodeData) (body : option json)
    : response MoodTuneAPI.Response :=
  match body with
  | None => InternalError
  | Some data =>
      if negb (truthy data) then BadRequest "Missing required field: text"
      else
        match has data "text" with
        | None => InternalError
        | Some false => BadRequest "Missing required field: text"
        | Some true =>
            match getitem data "text" with
            | None => InternalError
            | Some user_text =>
                match get data "num_songs" (JInt 5) with
                | None => InternalError
                | Some num_songs =>
                    match as_int num_songs with
                    | None => BadRequest "num_songs must be an integer between 1 and 20"
                    | Some n =>
                        if (n <? 1)%Z || (20 <? n)%Z
                        then BadRequest "num_songs must be an integer between 1 and 20"
                        else
                          (* the log line slices the text, then the pipeline lowers it *)
                          match slice user_text 50, user_text with
                          | Some _, JStr text =>
                              match MoodTuneAPI.analyze_and_recommend U text n with
                              | Some result => Ok result
                              | None => InternalError
                              end
                          | _, _ => InternalError
                          end
                    end
                end
            end
        end
  end.

Definition get_moods : response (list string) :=
  Ok MusicRecommender.get_all_moods.

(** [recommend_by_mood], on the path segment and on what
    [request.args.get('num_songs', 5, type=int)] converts: [None] when the
    parameter is absent or is not an integer, which both give the default. *)
Definition recommend_by_mood (mood : string) (num_songs_arg : option Z)
    : response (string * list MusicRecommender.Song) :=
  let num_songs := match num_songs_arg with Some n => n | None => 5%Z end in
  if (num_songs <? 1)%Z || (20 <? num_songs)%Z
  then BadRequest "num_songs must be between 1 and 20"
  else
    let available_moods := MusicRecommender.get_all_moods in
    if negb (existsb (String.eqb mood) available_moods)
    then BadRequest
           (String.append "Invalid mood. Available moods: "
              (String.concat ", " available_moods))
    else
      match MusicRecommender.get_recommendations mood num_songs with
      | Some recommendations => Ok (mood, recommendations)
      | None => InternalError
      end.

End ApiServer.

(** ** [spotify_integration.py] *)

Module SpotifyAPI.
Import PyStr PyDict PyJson.

(** One entry of [self.mood_features]. *)
Record MoodParams := mkMoodParams {
  target_valence : float;
  target_energy : float;
  seed_genres : list string
}.

(** [self.mood_features], in the order of the literal. *)
Definition mood_features : dict MoodParams :=
  [ ("happy", mkMoodParams 0.8 0.7 ["pop"; "dance"; "funk"]);
    ("sad", mkMoodParams 0.3 0.4 ["acoustic"; "piano"; "sad"]);
    ("energetic", mkMoodParams 0.6 0.9 ["rock"; "edm"; "workout"]);
    ("calm", mkMoodParams 0.5 0.3 ["ambient"; "chill"; "classical"]);
    ("romantic", mkMoodParams 0.7 0.5 ["r-n-b"; "soul"; "romance"]);
    ("angry", mkMoodParams 0.3 0.9 ["metal"; "hard-rock"; "punk"]);
    ("anxious", mkMoodParams 0.4 0.5 ["alternative"; "indie"; "folk"]);
    ("nostalgic", mkMoodParams 0.6 0.6 ["classic-rock"; "oldies"; "retro"]);
    ("confident", mkMoodParams 0.7 0.8 ["hip-hop"; "rap"; "power"])
  ]%string.

(** The attributes of the client that change or decide something: the
    credentials after [__init__] resolved them, and the token, which is
    [None] ([JNull], as a JSON null is) until a token request succeeds and
    then whatever the answer holds under ['access_token']. *)
Record Client := mkClient {
  client_id : option str;
  client_secret : option str;
  access_token : json
}.

(** The parameters of the recommendations request. *)
Record RecommendationParams := mkRecommendationParams {
  param_seed_genres : string;
  param_target_valence : float;
  param_target_energy : float;
  param_limit : Z
}.

(** The parameters of the search request ([type] is always ['track']). *)
Record SearchParams := mkSearchParams {
  param_q : str;
  param_search_limit : Z
}.

(** The network, as one call sees it.  Each field stands for a request up to
    [response.json()] and gives the parsed body, or [None] when anything on
    the way raises (the encoding of the credentials, the connection, the
    status check of [raise_for_status], the parsing).
    [post_token] is the token request for a client id and secret, the two
    others the GET requests for a token and parameters. *)
Record Network := mkNetwork {
  post_token : str -> str -> option json;
  get_recommendations_json : json -> RecommendationParams -> option json;
  get_search_json : json -> SearchParams -> option json
}.

Definition not_str (s : option str) : bool :=
  match s with
  | None => true
  | Some s => Nat.eqb (List.length s) 0
  end.

(** [authenticate]: the answer and the client afterwards.  What is printed
    is not modelled. *)
Definition authenticate (net : Network) (c : Client) : bool * Client :=
  if not_str (client_id c) || not_str (client_secret c) then (false, c)
  else
    match client_id c, client_secret c with
    | Some id, Some secret =>
        match post_token net id secret with
        | None => (false, c)
        | Some token_data =>
            match getitem token_data "access_token" with
            | None => (false, c)
            | Some token =>
                (true, {| client_id := client_id c;
                          client_secret := client_secret c;
                          access_token := token |})
            end
        end
    | _, _ => (false, c)
    end.

(** One formatted track of the recommendations. *)
Record Track := mkTrack {
  title : json;
  artist : str;
  album : json;
  year : json;
  preview_url : json;
  spotify_url : json;
  album_art : json;
  duration_ms : json;
  popularity : json
}.

(** [', '.join([artist['name'] for artist in track['artists']])]. *)
Definition artist_names (track : json) : option str :=
  artists <- getitem track "artists" ;;
  artist_list <- iterate artists ;;
  names <- for_each (fun artist => getitem artist "name") artist_list ;;
  join ", " names.

(** The dictionary built for one track of the recommendations; [None] when
    building it raises. *)
Definition format_track (track : json) : option Track :=
  name <- getitem track "name" ;;
  artist <- artist_names track ;;
  track_album <- getitem track "album" ;;
  album_name <- getitem track_album "name" ;;
  release_date <- get track_album "release_date" JNull ;;
  year <- (if truthy release_date
           then (date <- getitem track_album "release_date" ;; slice date 4)
           else Some (JStr (of_string "N/A"))) ;;
  preview <- get track "preview_url" JNull ;;
  urls <- getitem track "external_urls" ;;
  url <- getitem urls "spotify" ;;
  images <- getitem track_album "images" ;;
  art <- (if truthy images
          then (image <- first_item images ;; getitem image "url")
          else Some JNull) ;;
  duration <- getitem track "duration_ms" ;;
  pop <- getitem track "popularity" ;;
  Some {| title := name; artist := artist; album := album_name; year := year;
          preview_url := preview; spotify_url := url; album_art := art;
          duration_ms := duration; popularity := pop |}.

(** What [get_recommendations] returns: the formatted tracks of Spotify, or
    the songs of [MusicRecommender] (both are lists of dictionaries in the
    source). *)
Inductive Recommendations : Type :=
| FromSpotify (tracks : list Track)
| Curated (songs : list MusicRecommender.Song).

(** [_get_mock_recommendations]; [None] when the recommender raises. *)
Definition _get_mock_recommendations (mood : string) (limit : Z)
    : option Recommendations :=
  songs <- MusicRecommender.get_recommendations mood limit ;;
  Some (Curated songs).

(** The parameters of the request for [mood]; [None] for the [KeyError] of
    [self.mood_features['calm']]. *)
Definition recommendation_params (mood : string) (limit : Z)
    : option RecommendationParams :=
  default <- lookup mood_features "calm" ;;
  let mood_params := PyDict.get mood_features mood default in
  Some {| param_seed_genres := String.concat "," (firstn 2 (seed_genres mood_params));
          param_target_valence := target_valence mood_params;
          param_target_energy := target_energy mood_params;
          param_limit := limit |}.

(** The [try] block of [get_recommendations], with the token in hand. *)
Definition fetch_recommendations (net : Network) (token : json)
    (mood : string) (limit : Z) : option (list Track) :=
  params <- recommendation_params mood limit ;;
  data <- get_recommendations_json net token params ;;
  tracks <- get data "tracks" (JList []) ;;
  track_list <- iterate tracks ;;
  for_each format_track track_list.

(** [get_recommendations]: the client afterwards and the result; [None] when
    an exception leaves the method, which only the fallback can cause. *)
Definition get_recommendations (net : Network) (c : Client) (mood : string)
    (limit : Z) : option (Client * Recommendations) :=
  let (authenticated, c') :=
    if negb (truthy (access_token c)) then authenticate net c else (true, c) in
  if negb authenticated then
    mock <- _get_mock_recommendations mood limit ;;
    Some (c', mock)
  else
    match fetch_recommendations net (access_token c') mood limit with
    | Some tracks => Some (c', FromSpotify tracks)
    | None =>
        mock <- _get_mock_recommendations mood limit ;;
        Some (c', mock)
    end.

(** One formatted track of a search. *)
Record SearchResult := mkSearchResult {
  result_title : json;
  result_artist : str;
  result_album : json;
  result_spotify_url : json;
  result_preview_url : json;
  result_popularity : json
}.

Definition format_search_result (track : json) : option SearchResult :=
  name <- getitem track "name" ;;
  artist <- artist_names track ;;
  track_album <- getitem track "album" ;;
  album_name <- getitem track_album "name" ;;
  urls <- getitem track "external_urls" ;;
  url <- getitem urls "spotify" ;;
  preview <- get track "preview_url" JNull ;;
  pop <- getitem track "popularity" ;;
  Some {| result_title := name; result_artist := artist;
          result_album := album_name; result_spotify_url := url;
          result_preview_url := preview; result_popularity := pop |}.

(** The [try] block of [search_track]. *)
Definition fetch_search (net : Network) (token : json) (query : str)
    (limit : Z) : option (list SearchResult) :=
  data <- get_search_json net token
            {| param_q := query; param_search_limit := limit |} ;;
  tracks <- get data "tracks" (JDict []) ;;
  items <- get tracks "items" (JList []) ;;
  item_list <- iterate items ;;
  for_each format_search_result item_list.

(** [search_track]: the client afterwards and the tracks found. *)
Definition search_track (net : Network) (c : Client) (query : str)
    (limit : Z) : Client * list SearchResult :=
  let (authenticated, c') :=
    if negb (truthy (access_token c)) then authenticate net c else (true, c) in
  if negb authenticated then (c', [])
  else
    match fetch_search net (access_token c') query limit with
    | Some tracks => (c', tracks)
    | None => (c', [])
    end.

End SpotifyAPI.

(** ** Notions used by the further properties *)

(** Entry by entry, the same emotion with a score at most as great. *)
Definition scores_le (d1 d2 : dict Z) : Prop :=
  Forall2 (fun a b => fst a = fst b /\ (snd a <= snd b)%Z) d1 d2.

(** What is checked of a winning score [w] against a total [total]: the
    quotient is not above 1.0, so that [min] returns it, and it rounds to
    between 0.10 and 0.98. *)
Definition clamp_check (w total : Z) : bool :=
  negb (PrimFloat.ltb 1 (truediv w (total + 1)))
  && match scaled_round (py_min (truediv w (total + 1)) 1.0) 2 with
     | Some n => (10 <=? n)%Z && (n <=? 98)%Z
     | None => false
     end.

(** Every winning score up to [max_w] against every total from it up to
    nine times it. *)
Definition clamp_table_check (max_w : nat) : bool :=
  forallb
    (fun w => forallb (fun total => clamp_check w total)
                (zrange w (8 * Z.to_nat w + 1)))
    (zrange 1 max_w).

Fixpoint distinct_strings (l : list string) : bool :=
  match l with
  | [] => true
  | x :: l' => negb (existsb (String.eqb x) l') && distinct_strings l'
  end.

(** The titles of a database, list after list. *)
Definition all_titles (db : dict (list Song)) : list string :=
  List.concat (map (fun item => map title (snd item)) db).

(** The [num_songs] of a request object, 5 when it has none. *)
Definition requested_num_songs (items : list (str * PyJson.json)) : PyJson.json :=
  match PyJson.jlookup items (of_string "num_songs") with
  | Some v => v
  | None => PyJson.JInt 5
  end.

(** A request object [analyze_mood] accepts: its text is a string and its
    [num_songs], when given, is an integer (or a boolean, which Python counts
    as one) from 1 to 20. *)
Definition accepted_request (items : list (str * PyJson.json)) (text : str)
    (n : Z) : Prop :=
  PyJson.jlookup items (of_string "text") = Some (PyJson.JStr text) /\
  PyJson.as_int (requested_num_songs items) = Some n /\
  (1 <= n <= 20)%Z.

(** The count [recommend_by_mood] works with. *)
Definition used_num_songs (num_songs_arg : option Z) : Z :=
  match num_songs_arg with
  | Some n => n
  | None => 5%Z
  end.

(** A track as Spotify describes one, used to run the client: two artists,
    a release date, no image. *)
Definition sample_track : PyJson.json :=
  PyJson.JDict
    [ (of_string "name", PyJson.JStr (of_string "Under Pressure"));
      (of_string "artists",
       PyJson.JList
         [ PyJson.JDict [(of_string "name", PyJson.JStr (of_string "Queen"))];
           PyJson.JDict [(of_string "name", PyJson.JStr (of_string "David Bowie"))] ]);
      (of_string "album",
       PyJson.JDict
         [ (of_string "name", PyJson.JStr (of_string "Hot Space"));
           (of_string "release_date", PyJson.JStr (of_string "1982-05-21"));
           (of_string "images", PyJson.JList []) ]);
      (of_string "external_urls",
       PyJson.JDict [(of_string "spotify", PyJson.JStr (of_string "https://open.spotify.com/track/1"))]);
      (of_string "duration_ms", PyJson.JInt 248000);
      (of_string "popularity", PyJson.JInt 80) ].

(** A network that grants the token ["t0"] and answers every request for
    recommendations with [tracks]; searches fail. *)
Definition network_with (tracks : list PyJson.json) : SpotifyAPI.Network :=
  SpotifyAPI.mkNetwork
    (fun _ _ => Some (PyJson.JDict [(of_string "access_token", PyJson.JStr (of_string "t0"))]))
    (fun _ _ => Some (PyJson.JDict [(of_string "tracks", PyJson.JList tracks)]))
    (fun _ _ => None).

(** [x] is a binary64 number nearest to [n / 100], said on its exact value
    and not through a division: [x] is zero when [n] is 0, and otherwise a
    positive normal number [m * 2^e], with [m] of 53 bits, at most half a unit
    in the last place ([2^e / 2]) away from [n / 100]. *)
Definition nearest_double_to_hundredths (x : float) (n : Z) : bool :=
  match Prim2SF x with
  | S754_zero _ => (n =? 0)%Z
  | S754_finite false m e =>
      (e <? 0)%Z && (2 ^ 52 <=? Zpos m)%Z && (Zpos m <? 2 ^ 53)%Z
      && (Z.abs (100 * Zpos m - n * 2 ^ (- e)) <=? 50)%Z
  | _ => false
  end.

Definition hundredths_table_check (count : nat) : bool :=
  forallb (fun n => nearest_double_to_hundredths (truediv n 100) n) (zrange 0 count).

(** ** Lists of integers and score dictionaries *)

Section Dictionaries.

Lemma fold_add_shift (vs : list Z) (a : Z) :
  fold_left Z.add vs a = (a + fold_left Z.add vs 0)%Z.
Proof.
  revert a; induction vs as [|v vs IH]; intros a; simpl.
  - lia.
  - rewrite (IH (a + v)%Z), (IH v). lia.
Qed.

Lemma sum_cons (v : Z) (vs : list Z) : sum (v :: vs) = (v + sum vs)%Z.
Proof. unfold sum; simpl. now rewrite fold_add_shift. Qed.

Lemma sum_nonneg (vs : list Z) :
  Forall (fun v => 0 <= v)%Z vs -> (0 <= sum vs)%Z.
Proof.
  induction 1 as [|v vs Hv _ IH].
  - reflexivity.
  - rewrite sum_cons. lia.
Qed.

Lemma sum_ge_member (vs : list Z) (s : Z) :
  Forall (fun v => 0 <= v)%Z vs -> In s vs -> (s <= sum vs)%Z.
Proof.
  induction 1 as [|v vs Hv Hvs IH]; intros Hin.
  - destruct Hin.
  - rewrite sum_cons. pose proof (sum_nonneg vs Hvs).
    destruct Hin as [->|Hin]; [lia | specialize (IH Hin); lia].
Qed.

Lemma sum_le_pointwise (vs bs : list Z) :
  Forall2 Z.le vs bs -> (sum vs <= sum bs)%Z.
Proof.
  induction 1 as [|v b vs bs Hvb _ IH].
  - reflexivity.
  - rewrite !sum_cons. lia.
Qed.

Lemma any_false_all_zero (vs : list Z) :
  any vs = false <-> Forall (fun v => v = 0%Z) vs.
Proof.
  unfold any. induction vs as [|v vs IH]; simpl.
  - split; [constructor | reflexivity].
  - rewrite orb_false_iff, IH, negb_false_iff, Z.eqb_eq. split.
    + intros [Hv Hvs]. now constructor.
    + intros H. inversion H; subst. now split.
Qed.

Lemma max_value_upper (vs : list Z) (s : Z) :
  (0 <= s)%Z -> Forall (fun v => v <= s)%Z vs -> (max_value vs <= s)%Z.
Proof.
  intros Hs. induction 1 as [|v vs Hv _ IH]; simpl; lia.
Qed.

Lemma max_value_lower (vs : list Z) (s : Z) : In s vs -> (s <= max_value vs)%Z.
Proof.
  induction vs as [|v vs IH]; simpl; intros Hin.
  - destruct Hin.
  - destruct Hin as [->|Hin]; [lia | specialize (IH Hin); lia].
Qed.

Lemma max_value_nonneg (vs : list Z) : (0 <= max_value vs)%Z.
Proof. induction vs as [|v vs IH]; simpl; lia. Qed.

Lemma max_value_zero_all_zero (vs : list Z) :
  Forall (fun v => 0 <= v)%Z vs ->
  max_value vs = 0%Z -> Forall (fun v => v = 0%Z) vs.
Proof.
  induction 1 as [|v vs Hv Hvs IH]; simpl; intros Hmax.
  - constructor.
  - pose proof (max_value_nonneg vs). constructor; [lia | apply IH; lia].
Qed.

(** [any] sees a score exactly when the greatest score is not zero. *)
Lemma any_iff_max_value (vs : list Z) :
  Forall (fun v => 0 <= v)%Z vs ->
  any vs = true <-> max_value vs <> 0%Z.
Proof.
  intros Hnn. split.
  - intros Hany Hmax.
    apply max_value_zero_all_zero in Hmax; [|assumption].
    apply any_false_all_zero in Hmax. congruence.
  - intros Hmax. destruct (any vs) eqn:Hany; [reflexivity|].
    exfalso. apply Hmax. apply any_false_all_zero in Hany.
    clear Hnn Hmax. induction Hany as [|v vs Hv _ IH]; simpl; lia.
Qed.

(** The running maximum after the whole list is the first greatest item. *)
Lemma fold_max_step_first (rest : dict Z) (item : string * Z) :
  exists before after,
    item :: rest = before ++ fold_left max_step rest item :: after /\
    Forall (fun i => snd i < snd (fold_left max_step rest item))%Z before /\
    Forall (fun i => snd i <= snd (fold_left max_step rest item))%Z after.
Proof.
  induction rest as [|x rest IH] using rev_ind.
  - exists [], []. simpl. repeat split; constructor.
  - destruct IH as (before & after & Heq & Hb & Ha).
    rewrite fold_left_app. simpl.
    set (best := fold_left max_step rest item) in *.
    unfold max_step. destruct (snd best <? snd x)%Z eqn:Hlt.
    + apply Z.ltb_lt in Hlt. exists (item :: rest), []. repeat split.
      * rewrite Heq. apply Forall_app. split.
        -- eapply Forall_impl; [|exact Hb]. simpl; intros; lia.
        -- constructor; [lia|].
           eapply Forall_impl; [|exact Ha]. simpl; intros; lia.
      * constructor.
    + apply Z.ltb_ge in Hlt. exists before, (after ++ [x]). repeat split.
      * rewrite app_comm_cons, Heq, <- app_assoc. reflexivity.
      * exact Hb.
      * apply Forall_app. split; [exact Ha|]. constructor; [lia|constructor].
Qed.

Lemma max_key_first_maximum (d : dict Z) :
  d <> [] ->
  exists best s, max_key d = Some best /\ first_maximum d best s.
Proof.
  destruct d as [|item rest]; [congruence|]. intros _.
  destruct (fold_max_step_first rest item) as (before & after & Heq & Hb & Ha).
  exists (fst (fold_left max_step rest item)), (snd (fold_left max_step rest item)).
  split; [reflexivity|]. exists before, after.
  rewrite <- surjective_pairing. auto.
Qed.

Lemma lookup_app_first {V} (before after : dict V) (k : string) (v : V) :
  ~ In k (keys before) -> lookup (before ++ (k, v) :: after) k = Some v.
Proof.
  induction before as [|[k' v'] before IH]; simpl; intros Hnot.
  - now rewrite String.eqb_refl.
  - destruct (String.eqb_spec k k') as [->|Hne].
    + exfalso. apply Hnot. now left.
    + apply IH. intros Hin. apply Hnot. now right.
Qed.

Lemma lookup_in_keys {V} (d : dict V) (k : string) :
  In k (keys d) <-> lookup d k <> None.
Proof.
  induction d as [|[k' v'] d IH]; simpl.
  - split; [intros [] | congruence].
  - destruct (String.eqb_spec k k') as [->|Hne].
    + split; [congruence | now left].
    + rewrite <- IH. split; [intros [Heq|Hin]; [congruence|exact Hin] | now right].
Qed.

Lemma NoDup_keys_split {V} (before after : dict V) (k : string) (v : V) :
  NoDup (keys (before ++ (k, v) :: after)) -> ~ In k (keys before).
Proof.
  unfold keys. rewrite map_app. simpl. intros Hnd Hin.
  apply NoDup_remove_2 in Hnd. apply Hnd. apply in_or_app. now left.
Qed.

Lemma first_maximum_lookup (d : dict Z) (best : string) (s : Z) :
  NoDup (keys d) -> first_maximum d best s -> lookup d best = Some s.
Proof.
  intros Hnd (before & after & -> & _ & _).
  apply lookup_app_first. eapply NoDup_keys_split; eassumption.
Qed.

Lemma first_maximum_max_value (d : dict Z) (best : string) (s : Z) :
  Forall (fun v => 0 <= v)%Z (values d) ->
  first_maximum d best s -> max_value (values d) = s.
Proof.
  intros Hnn (before & after & -> & Hb & Ha).
  assert (Hin : In s (values (before ++ (best, s) :: after))).
  { unfold values. rewrite map_app. apply in_or_app. right. now left. }
  assert (Hs : (0 <= s)%Z).
  { rewrite Forall_forall in Hnn. now apply Hnn. }
  apply Z.le_antisymm; [|now apply max_value_lower].
  apply max_value_upper; [exact Hs|].
  unfold values. rewrite map_app. apply Forall_app. split.
  - apply Forall_map. eapply Forall_impl; [|exact Hb]. simpl; intros; lia.
  - simpl. constructor; [lia|]. apply Forall_map. exact Ha.
Qed.

End Dictionaries.

(** ** The scoring loop *)

Section Scoring.

Variable text_clean : str.

Lemma add_hits_eq (weight : Z) (keywords : list string) (score : Z) :
  add_hits weight keywords text_clean score
  = (score + weight * hits keywords text_clean)%Z.
Proof.
  unfold add_hits, hits. revert score.
  induction keywords as [|kw keywords IH]; intros score; simpl.
  - lia.
  - rewrite IH. destruct (contains (of_string kw) text_clean); simpl List.length; lia.
Qed.

Lemma hits_bounds (keywords : list string) :
  (0 <= hits keywords text_clean <= Z.of_nat (List.length keywords))%Z.
Proof.
  unfold hits. split; [lia|]. apply inj_le, filter_length_le.
Qed.

Lemma hits_zero_iff (keywords : list string) :
  hits keywords text_clean = 0%Z
  <-> existsb (fun kw => contains (of_string kw) text_clean) keywords = false.
Proof.
  unfold hits. induction keywords as [|kw keywords IH]; simpl.
  - split; reflexivity.
  - destruct (contains (of_string kw) text_clean); simpl.
    + split; [lia | discriminate].
    + exact IH.
Qed.

(** The score of an emotion: 3 for each primary keyword that occurs, 1 for
    each secondary one, 5 for each intensity one; a keyword counts once. *)
Lemma emotion_score_eq (ks : KeywordSets) :
  emotion_score ks text_clean
  = (3 * hits (kw_primary ks) text_clean
     + hits (kw_secondary ks) text_clean
     + 5 * hits (kw_intensity ks) text_clean)%Z.
Proof. unfold emotion_score. rewrite !add_hits_eq. lia. Qed.

Lemma emotion_score_bounds (ks : KeywordSets) :
  (0 <= emotion_score ks text_clean <= weight_bound ks)%Z.
Proof.
  rewrite emotion_score_eq. unfold weight_bound.
  pose proof (hits_bounds (kw_primary ks)).
  pose proof (hits_bounds (kw_secondary ks)).
  pose proof (hits_bounds (kw_intensity ks)). lia.
Qed.

Lemma emotion_score_zero_iff (ks : KeywordSets) :
  emotion_score ks text_clean = 0%Z
  <-> existsb (fun kw => contains (of_string kw) text_clean) (all_keywords ks) = false.
Proof.
  unfold all_keywords. rewrite !existsb_app, !orb_false_iff, <- !hits_zero_iff.
  rewrite emotion_score_eq.
  pose proof (hits_bounds (kw_primary ks)).
  pose proof (hits_bounds (kw_secondary ks)).
  pose proof (hits_bounds (kw_intensity ks)). lia.
Qed.

Lemma keys_score_table (table : dict KeywordSets) :
  keys (score_table table text_clean) = keys table.
Proof. unfold keys, score_table. rewrite map_map. reflexivity. Qed.

Lemma values_score_table (table : dict KeywordSets) :
  values (score_table table text_clean)
  = map (fun item => emotion_score (snd item) text_clean) table.
Proof. unfold values, score_table. rewrite map_map. reflexivity. Qed.

Lemma scores_nonneg (table : dict KeywordSets) :
  Forall (fun v => 0 <= v)%Z (values (score_table table text_clean)).
Proof.
  rewrite values_score_table. apply Forall_map, Forall_forall.
  intros item _. apply emotion_score_bounds.
Qed.

Lemma scores_bounded (table : dict KeywordSets) :
  Forall2 Z.le (values (score_table table text_clean))
               (map (fun item => weight_bound (snd item)) table).
Proof.
  rewrite values_score_table.
  induction table as [|item table IH]; simpl; constructor.
  - apply emotion_score_bounds.
  - exact IH.
Qed.

(** Some score is not zero exactly when some keyword occurs in the text. *)
Lemma any_scores_iff_match (table : dict KeywordSets) :
  any (values (score_table table text_clean))
  = some_keyword_matches table text_clean.
Proof.
  rewrite values_score_table. unfold any, some_keyword_matches.
  induction table as [|item table IH]; simpl; [reflexivity|].
  rewrite IH. f_equal.
  destruct (existsb _ (all_keywords (snd item))) eqn:Hex.
  - apply negb_true_iff, Z.eqb_neq. intros Hz.
    apply emotion_score_zero_iff in Hz. congruence.
  - apply negb_false_iff, Z.eqb_eq. now apply emotion_score_zero_iff.
Qed.

End Scoring.

(** ** The two branches of [detect_emotion] *)

Section Detection.

Variable table : dict KeywordSets.
Hypothesis table_keys : NoDup (keys table).
Variable U : UnicodeData.
Variable text : str.

(** No keyword occurs: the default answer. *)
Lemma detect_default :
  any (values (scores_of table U text)) = false ->
  detect_emotion_with table U text
  = Some {| emotion := "calm"; MoodDetector.confidence := 0.5;
            MoodDetector.intensity := "low";
            all_scores := scores_of table U text |}.
Proof.
  unfold scores_of, detect_emotion_with. intros Hany. now rewrite Hany.
Qed.

(** Some keyword occurs: the first emotion with the greatest score, and the
    confidence and intensity computed from that score. *)
Lemma detect_maximum :
  any (values (scores_of table U text)) = true ->
  exists best s,
    first_maximum (scores_of table U text) best s /\
    lookup (scores_of table U text) best = Some s /\
    max_value (values (scores_of table U text)) = s /\
    detect_emotion_with table U text
    = Some {| emotion := best;
              MoodDetector.confidence :=
                confidence_of s (sum (values (scores_of table U text)));
              MoodDetector.intensity := intensity_of s;
              all_scores := scores_of table U text |}.
Proof.
  intros Hany.
  assert (Hne : scores_of table U text <> []).
  { intros Hnil. rewrite Hnil in Hany. discriminate. }
  destruct (max_key_first_maximum _ Hne) as (best & s & Hmax & Hfirst).
  assert (Hlook : lookup (scores_of table U text) best = Some s).
  { apply first_maximum_lookup; [|exact Hfirst].
    unfold scores_of. now rewrite keys_score_table. }
  exists best, s. repeat split; try assumption.
  - apply (first_maximum_max_value _ best); [apply scores_nonneg | exact Hfirst].
  - unfold detect_emotion_with. fold (scores_of table U text).
    rewrite Hany. simpl. rewrite Hmax, Hlook. reflexivity.
Qed.

(** [detect_emotion] raises nothing. *)
Lemma detect_with_total :
  exists r,
    detect_emotion_with table U text = Some r /\
    all_scores r = scores_of table U text.
Proof.
  destruct (any (values (scores_of table U text))) eqn:Hany.
  - destruct (detect_maximum Hany) as (best & s & _ & _ & _ & Heq).
    eexists. split; [exact Heq | reflexivity].
  - eexists. split; [exact (detect_default Hany) | reflexivity].
Qed.

End Detection.

(** ** The tables of the repository *)

Lemma emotion_keywords_keys : keys emotion_keywords = mood_order.
Proof. reflexivity. Qed.

Lemma song_database_keys : keys song_database = mood_order.
Proof. reflexivity. Qed.

Lemma mood_order_NoDup : NoDup mood_order.
Proof.
  unfold mood_order.
  repeat (constructor; [simpl; intuition discriminate|]). constructor.
Qed.

Lemma emotion_keywords_NoDup : NoDup (keys emotion_keywords).
Proof. rewrite emotion_keywords_keys. exact mood_order_NoDup. Qed.

Lemma all_zero_scores (d : dict Z) :
  any (values d) = false -> d = map (fun k => (k, 0%Z)) (keys d).
Proof.
  intros Hany. apply any_false_all_zero in Hany.
  induction d as [|[k v] d IH]; simpl in *; [reflexivity|].
  inversion Hany; subst. f_equal. now apply IH.
Qed.

Lemma scores_of_keys (U : UnicodeData) (text : str) :
  keys (scores_of emotion_keywords U text) = mood_order.
Proof. unfold scores_of. now rewrite keys_score_table. Qed.

(** C1: when some keyword occurs in the text, [detect_emotion] returns the
    emotion with the greatest score, and among several emotions with that score
    the first one in the order happy, sad, energetic, calm, romantic, angry,
    anxious, nostalgic, confident: every entry before the returned one has a
    strictly smaller score and no entry after it has a greater one. *)
Theorem detect_emotion_first_maximal_mood (U : UnicodeData) (text : str) :
  some_keyword_matches emotion_keywords (normalize U text) = true ->
  exists r s,
    detect_emotion U text = Some r /\
    all_scores r = scores_of emotion_keywords U text /\
    keys (all_scores r) = mood_order /\
    max_value (values (all_scores r)) = s /\
    first_maximum (all_scores r) (emotion r) s.
Proof.
  intros Hmatch. rewrite <- any_scores_iff_match in Hmatch.
  destruct (detect_maximum emotion_keywords emotion_keywords_NoDup U text Hmatch)
    as (best & s & Hfirst & _ & Hmax & Heq).
  eexists. exists s. split; [exact Heq|]. cbn [all_scores emotion].
  split; [reflexivity|]. split; [exact (scores_of_keys U text)|]. split; assumption.
Qed.

Lemma detect_emotion_first_maximal_mood_witness :
  exists r s,
    detect_emotion ascii_only (of_string "so sad, then happy") = Some r /\
    all_scores r = scores_of emotion_keywords ascii_only (of_string "so sad, then happy") /\
    keys (all_scores r) = mood_order /\
    max_value (values (all_scores r)) = s /\
    first_maximum (all_scores r) (emotion r) s.
Proof.
  apply (detect_emotion_first_maximal_mood ascii_only (of_string "so sad, then happy")).
  vm_compute. reflexivity.
Defined.

(** A tie between happy and sad goes to happy, whichever comes first in the
    text. *)
Example tie_goes_to_first_declared :
  option_map emotion (detect_emotion ascii_only (of_string "so sad, then happy"))
  = Some "happy"%string /\
  option_map all_scores (detect_emotion ascii_only (of_string "so sad, then happy"))
  = Some [("happy", 3); ("sad", 3); ("energetic", 0); ("calm", 0); ("romantic", 0);
          ("angry", 0); ("anxious", 0); ("nostalgic", 0); ("confident", 0)]%string%Z.
Proof. split; vm_compute; reflexivity. Qed.

(** C3: when no keyword of any emotion occurs in the text, [detect_emotion]
    returns calm with confidence 0.5 and intensity low, its scores give 0 to
    each of the nine emotions, and nothing is raised. *)
Theorem detect_emotion_no_match (U : UnicodeData) (text : str) :
  some_keyword_matches emotion_keywords (normalize U text) = false ->
  detect_emotion U text
  = Some {| emotion := "calm";
            MoodDetector.confidence := 0.5;
            MoodDetector.intensity := "low";
            all_scores := map (fun mood => (mood, 0%Z)) mood_order |}.
Proof.
  intros Hmatch. rewrite <- any_scores_iff_match in Hmatch.
  change (any (values (scores_of emotion_keywords U text)) = false) in Hmatch.
  unfold detect_emotion. rewrite (detect_default _ _ _ Hmatch).
  rewrite (all_zero_scores _ Hmatch), (scores_of_keys U text). reflexivity.
Qed.

(** The empty string. *)
Lemma detect_emotion_no_match_witness :
  detect_emotion ascii_only (of_string "")
  = Some {| emotion := "calm";
            MoodDetector.confidence := 0.5;
            MoodDetector.intensity := "low";
            all_scores := map (fun mood => (mood, 0%Z)) mood_order |}.
Proof.
  apply (detect_emotion_no_match ascii_only (of_string "")). reflexivity.
Defined.

(** The empty string is ASCII, so the answer is the same with every Unicode
    database. *)
Lemma detect_emotion_empty (U : UnicodeData) :
  detect_emotion U []
  = Some {| emotion := "calm";
            MoodDetector.confidence := 0.5;
            MoodDetector.intensity := "low";
            all_scores := map (fun mood => (mood, 0%Z)) mood_order |}.
Proof. vm_compute. reflexivity. Qed.

(** C8: when the greatest score of the text is not zero, the intensity is
    given by that score, which is the score of the returned emotion: high
    from 5 on, medium from 3 to 4, low below 3.  The scores returned are
    those of the text. *)
Theorem intensity_bands (U : UnicodeData) (text : str) :
  max_value (values (scores_of emotion_keywords U text)) <> 0%Z ->
  exists r w,
    detect_emotion U text = Some r /\
    all_scores r = scores_of emotion_keywords U text /\
    w = max_value (values (scores_of emotion_keywords U text)) /\
    w = max_value (values (all_scores r)) /\
    lookup (all_scores r) (emotion r) = Some w /\
    ((5 <= w)%Z -> MoodDetector.intensity r = "high"%string) /\
    ((3 <= w < 5)%Z -> MoodDetector.intensity r = "medium"%string) /\
    ((w < 3)%Z -> MoodDetector.intensity r = "low"%string).
Proof.
  intros Hmax.
  apply any_iff_max_value in Hmax; [|apply scores_nonneg].
  destruct (detect_maximum emotion_keywords emotion_keywords_NoDup U text Hmax)
    as (best & s & _ & Hlook & Hs & Heq).
  eexists. exists s. split; [exact Heq|].
  cbn [all_scores emotion MoodDetector.intensity]. unfold intensity_of.
  split; [reflexivity|]. split; [now symmetry|].
  split; [now symmetry|]. split; [exact Hlook|].
  split; [|split]; intros Hw.
  - destruct (Z.leb_spec 5 s); [reflexivity | lia].
  - destruct (Z.leb_spec 5 s); [lia|]. destruct (Z.leb_spec 3 s); [reflexivity | lia].
  - destruct (Z.leb_spec 5 s); [lia|]. destruct (Z.leb_spec 3 s); [lia | reflexivity].
Qed.

(** "good and happy": happy scores 1 + 3 = 4, which is medium. *)
Lemma intensity_bands_witness :
  exists r w,
    detect_emotion ascii_only (of_string "good and happy") = Some r /\
    all_scores r = scores_of emotion_keywords ascii_only (of_string "good and happy") /\
    w = 4%Z /\
    lookup (all_scores r) (emotion r) = Some w /\
    MoodDetector.intensity r = "medium"%string.
Proof.
  destruct (intensity_bands ascii_only (of_string "good and happy"))
    as (r & w & Hr & Hscores & Hw & _ & Hlook & _ & Hmedium & _).
  - vm_compute. discriminate.
  - assert (Hfour : w = 4%Z) by (rewrite Hw; vm_compute; reflexivity).
    exists r, w. split; [exact Hr|]. split; [exact Hscores|].
    split; [exact Hfour|]. split; [exact Hlook|].
    apply Hmedium. lia.
Defined.

(** One text in each band: scores 1, 4 and 6. *)
Example intensity_examples :
  option_map MoodDetector.intensity (detect_emotion ascii_only (of_string "a good day"))
  = Some "low"%string /\
  option_map MoodDetector.intensity (detect_emotion ascii_only (of_string "good and happy"))
  = Some "medium"%string /\
  option_map MoodDetector.intensity (detect_emotion ascii_only (of_string "happy, great!"))
  = Some "high"%string.
Proof. repeat split; vm_compute; reflexivity. Qed.

(** ** The confidence *)

Lemma in_zrange (lo z : Z) (n : nat) :
  (lo <= z < lo + Z.of_nat n)%Z -> In z (zrange lo n).
Proof.
  intros Hz. unfold zrange. apply in_map_iff.
  exists (Z.to_nat (z - lo)). split; [lia | apply in_seq; lia].
Qed.

(** What a checked table gives for each pair it covers. *)
Lemma confidence_table_sound (max_w max_total : nat) :
  confidence_table_check max_w max_total = true ->
  forall w total : Z,
    (1 <= w <= Z.of_nat max_w)%Z -> (w <= total <= Z.of_nat max_total)%Z ->
    confidence_check w total = true.
Proof.
  unfold confidence_table_check. intros Htab w total Hw Ht.
  rewrite forallb_forall in Htab.
  assert (Hin : In w (zrange 1 max_w)) by (apply in_zrange; lia).
  specialize (Htab w Hin). rewrite forallb_forall in Htab.
  apply Htab. apply in_zrange. lia.
Qed.

(** Every winning score up to 50 against every total up to 377, by
    evaluation. *)
Lemma confidence_table : confidence_table_check 50 377 = true.
Proof. vm_compute. reflexivity. Qed.

Lemma confidence_check_in_range (w total : Z) :
  (1 <= w <= 50)%Z -> (w <= total <= 377)%Z -> confidence_check w total = true.
Proof.
  intros Hw Ht. apply (confidence_table_sound 50 377 confidence_table); lia.
Qed.

Lemma confidence_check_sound (w total : Z) :
  confidence_check w total = true ->
  PrimFloat.leb 0 (confidence_of w total) = true /\
  PrimFloat.leb (confidence_of w total) 1 = true /\
  exists n, confidence_of w total = truediv n 100 /\ nearest_hundredth n w total.
Proof.
  unfold confidence_check, confidence_of, py_round.
  destruct (scaled_round (py_min (truediv w (total + 1)) 1) 2) as [n|];
    [|discriminate].
  rewrite !andb_true_iff, !Z.leb_le.
  intros [[[[Hn0 Hn1] Hnear] Hge] Hle].
  change (PrimFloat.div (of_int n) (of_int (10 ^ 2))) with (truediv n 100).
  split; [exact Hge|]. split; [exact Hle|].
  exists n. split; [reflexivity|]. split; [split|]; assumption.
Qed.

Lemma weight_bounds_50 :
  Forall (fun b => b <= 50)%Z (map (fun item => weight_bound (snd item)) emotion_keywords).
Proof.
  apply Forall_forall. intros b Hb.
  assert (Hall : forallb (fun b => b <=? 50)%Z
                   (map (fun item => weight_bound (snd item)) emotion_keywords) = true)
    by (vm_compute; reflexivity).
  rewrite forallb_forall in Hall. apply Z.leb_le. now apply Hall.
Qed.

Lemma weight_bounds_sum :
  sum (map (fun item => weight_bound (snd item)) emotion_keywords) = 377%Z.
Proof. vm_compute. reflexivity. Qed.

Lemma Forall2_le_bound (vs bs : list Z) (M : Z) :
  Forall2 Z.le vs bs -> Forall (fun b => b <= M)%Z bs -> Forall (fun v => v <= M)%Z vs.
Proof.
  induction 1 as [|v b vs bs Hvb _ IH]; intros Hbs; constructor;
    inversion Hbs; subst; [lia | auto].
Qed.

Lemma first_maximum_in_values (d : dict Z) (best : string) (s : Z) :
  first_maximum d best s -> In s (values d).
Proof.
  intros (before & after & -> & _ & _).
  unfold values. rewrite map_app. apply in_or_app. right. now left.
Qed.

(** The winning score is between 1 and 50 and the total between the winning
    score and 377. *)
Lemma winning_score_range (U : UnicodeData) (text : str) (best : string) (s : Z) :
  any (values (scores_of emotion_keywords U text)) = true ->
  first_maximum (scores_of emotion_keywords U text) best s ->
  max_value (values (scores_of emotion_keywords U text)) = s ->
  (1 <= s <= 50)%Z /\
  (s <= sum (values (scores_of emotion_keywords U text)) <= 377)%Z.
Proof.
  intros Hany Hfirst Hmax.
  pose proof (scores_nonneg (normalize U text) emotion_keywords) as Hnn.
  pose proof (scores_bounded (normalize U text) emotion_keywords) as Hbd.
  fold (scores_of emotion_keywords U text) in Hnn, Hbd.
  pose proof (first_maximum_in_values _ _ _ Hfirst) as Hin.
  apply any_iff_max_value in Hany; [|exact Hnn].
  pose proof (max_value_nonneg (values (scores_of emotion_keywords U text))).
  pose proof (Forall2_le_bound _ _ _ Hbd weight_bounds_50) as H50.
  rewrite Forall_forall in H50. specialize (H50 s Hin).
  pose proof (sum_ge_member _ s Hnn Hin).
  pose proof (sum_le_pointwise _ _ Hbd) as Hsum. rewrite weight_bounds_sum in Hsum.
  lia.
Qed.

Lemma hundredths_table_sound (count : nat) :
  hundredths_table_check count = true ->
  forall n : Z, (0 <= n < Z.of_nat count)%Z ->
  nearest_double_to_hundredths (truediv n 100) n = true.
Proof.
  unfold hundredths_table_check. intros Htab n Hn.
  rewrite forallb_forall in Htab. apply Htab. apply in_zrange. lia.
Qed.

(** Each of 0/100, 1/100, ..., 100/100, by evaluation. *)
Lemma hundredths_table : hundredths_table_check 101 = true.
Proof. vm_compute. reflexivity. Qed.

(** C2: the scores returned are those of the text, and the confidence lies
    between 0 and 1 for every text; when the greatest score [w] of the text
    is not zero the confidence is [w / (total + 1)], clamped to at most 1.0
    and rounded to 2 decimals: it is the binary64 number nearest to [n / 100]
    for an integer [n] nearest to [100 * w / (total + 1)]. *)
Theorem confidence_formula (U : UnicodeData) (text : str) :
  exists r,
    detect_emotion U text = Some r /\
    all_scores r = scores_of emotion_keywords U text /\
    PrimFloat.leb 0 (MoodDetector.confidence r) = true /\
    PrimFloat.leb (MoodDetector.confidence r) 1 = true /\
    forall w total,
      w = max_value (values (scores_of emotion_keywords U text)) ->
      total = sum (values (scores_of emotion_keywords U text)) ->
      w <> 0%Z ->
      MoodDetector.confidence r = py_round (py_min (truediv w (total + 1)) 1.0) 2 /\
      exists n,
        MoodDetector.confidence r = truediv n 100 /\
        nearest_hundredth n w total /\
        nearest_double_to_hundredths (MoodDetector.confidence r) n = true.
Proof.
  destruct (any (values (scores_of emotion_keywords U text))) eqn:Hany.
  - destruct (detect_maximum emotion_keywords emotion_keywords_NoDup U text Hany)
      as (best & s & Hfirst & _ & Hmax & Heq).
    destruct (winning_score_range U text best s Hany Hfirst Hmax) as [Hs Ht].
    destruct (confidence_check_sound _ _ (confidence_check_in_range _ _ Hs Ht))
      as (Hge & Hle & n & Hn & Hnear).
    eexists. split; [exact Heq|].
    cbn [all_scores MoodDetector.confidence].
    split; [reflexivity|]. split; [exact Hge|]. split; [exact Hle|].
    intros w total -> -> _. rewrite Hmax.
    split; [reflexivity|]. exists n. split; [exact Hn|]. split; [exact Hnear|].
    rewrite Hn. apply (hundredths_table_sound 101 hundredths_table).
    destruct Hnear as [Hrange _]. lia.
  - eexists. split; [exact (detect_default emotion_keywords U text Hany)|].
    cbn [all_scores MoodDetector.confidence].
    split; [reflexivity|].
    split; [vm_compute; reflexivity|]. split; [vm_compute; reflexivity|].
    intros w total -> _ Hw. exfalso.
    apply any_iff_max_value in Hw; [congruence | apply scores_nonneg].
Qed.

(** Winning score 3 against a total of 6: 3/7 rounds to 0.43. *)
Lemma confidence_formula_witness :
  exists r,
    detect_emotion ascii_only (of_string "so sad, then happy") = Some r /\
    all_scores r = scores_of emotion_keywords ascii_only (of_string "so sad, then happy") /\
    max_value (values (all_scores r)) = 3%Z /\
    sum (values (all_scores r)) = 6%Z /\
    MoodDetector.confidence r = py_round (py_min (truediv 3 (6 + 1)) 1.0) 2 /\
    MoodDetector.confidence r = truediv 43 100 /\
    nearest_double_to_hundredths (MoodDetector.confidence r) 43 = true.
Proof.
  destruct (confidence_formula ascii_only (of_string "so sad, then happy"))
    as (r & Hr & Hscores & _ & _ & Hformula).
  exists r. split; [exact Hr|]. split; [exact Hscores|].
  assert (Hw : max_value (values (all_scores r)) = 3%Z)
    by (rewrite Hscores; vm_compute; reflexivity).
  assert (Ht : sum (values (all_scores r)) = 6%Z)
    by (rewrite Hscores; vm_compute; reflexivity).
  split; [exact Hw|]. split; [exact Ht|].
  destruct (Hformula 3%Z 6%Z) as [Heq _].
  - vm_compute. reflexivity.
  - vm_compute. reflexivity.
  - discriminate.
  - split; [exact Heq|]. rewrite Heq. split; vm_compute; reflexivity.
Defined.

(** ** The catalog lookup *)

Section Slices.

Context {A : Type}.

Lemma slice_to_positive (xs : list A) (limit : Z) :
  (0 <= limit)%Z -> slice_to xs limit = firstn (Z.to_nat limit) xs.
Proof.
  intros Hl. unfold slice_to. destruct (Z.ltb_spec limit 0); [lia | reflexivity].
Qed.

Lemma slice_to_length (xs : list A) (limit : Z) :
  (0 <= limit)%Z ->
  Z.of_nat (List.length (slice_to xs limit)) = Z.min limit (Z.of_nat (List.length xs)).
Proof.
  intros Hl. rewrite slice_to_positive by exact Hl. rewrite length_firstn. lia.
Qed.

Lemma slice_to_prefix (xs : list A) (limit : Z) :
  (0 <= limit)%Z -> exists rest, xs = slice_to xs limit ++ rest.
Proof.
  intros Hl. rewrite slice_to_positive by exact Hl.
  exists (skipn (Z.to_nat limit) xs). symmetry. apply firstn_skipn.
Qed.

End Slices.

Lemma get_recommendations_in_known (db : dict (list Song)) (mood : string)
    (limit : Z) (songs default : list Song) :
  lookup db "calm" = Some default ->
  lookup db mood = Some songs ->
  get_recommendations_in db mood limit = Some (slice_to songs limit).
Proof.
  intros Hcalm Hmood. unfold get_recommendations_in, get.
  now rewrite Hcalm, Hmood.
Qed.

Lemma get_recommendations_in_unknown (db : dict (list Song)) (mood : string)
    (limit : Z) (default : list Song) :
  lookup db "calm" = Some default ->
  lookup db mood = None ->
  get_recommendations_in db mood limit = Some (slice_to default limit).
Proof.
  intros Hcalm Hmood. unfold get_recommendations_in, get.
  now rewrite Hcalm, Hmood.
Qed.

Lemma song_database_has_calm :
  exists default, lookup song_database "calm" = Some default.
Proof. eexists. reflexivity. Qed.

(** C4: for a mood of the catalog and a positive count, [get_recommendations]
    returns [min(count, len)] songs, and they are the first songs of the
    mood's list in the stored order: the list is the result followed by the
    rest. *)
Theorem get_recommendations_prefix (mood : string) (count : Z) (songs : list Song) :
  lookup song_database mood = Some songs ->
  (0 < count)%Z ->
  exists recs,
    get_recommendations mood count = Some recs /\
    Z.of_nat (List.length recs) = Z.min count (Z.of_nat (List.length songs)) /\
    recs = firstn (Z.to_nat count) songs /\
    exists rest, songs = recs ++ rest.
Proof.
  intros Hmood Hcount. destruct song_database_has_calm as [default Hcalm].
  exists (slice_to songs count). split.
  - unfold get_recommendations.
    exact (get_recommendations_in_known _ _ _ _ _ Hcalm Hmood).
  - split; [apply slice_to_length; lia|].
    split; [apply slice_to_positive; lia | apply slice_to_prefix; lia].
Qed.

(** Seven songs asked of the five sad ones. *)
Lemma get_recommendations_prefix_witness :
  exists songs recs,
    lookup song_database "sad" = Some songs /\
    get_recommendations "sad" 7 = Some recs /\
    Z.of_nat (List.length recs) = Z.min 7 (Z.of_nat (List.length songs)) /\
    recs = firstn (Z.to_nat 7) songs /\
    exists rest, songs = recs ++ rest.
Proof.
  eexists.
  destruct (get_recommendations_prefix "sad" 7 _ eq_refl eq_refl) as (recs & H).
  exists recs. split; [reflexivity | exact H].
Defined.

(** C5: for a mood that is not a key of the catalog, [get_recommendations]
    raises nothing and returns the songs the catalog stores for calm, sliced
    by the count, which is what it returns for calm, whatever the count. *)
Theorem get_recommendations_unknown_mood (mood : string) (count : Z) :
  lookup song_database mood = None ->
  exists calm_songs recs,
    lookup song_database "calm" = Some calm_songs /\
    get_recommendations mood count = Some recs /\
    get_recommendations "calm" count = Some recs /\
    recs = slice_to calm_songs count /\
    ((0 <= count)%Z -> recs = firstn (Z.to_nat count) calm_songs).
Proof.
  intros Hmood. destruct song_database_has_calm as [default Hcalm].
  exists default, (slice_to default count). unfold get_recommendations.
  split; [exact Hcalm|]. split.
  - exact (get_recommendations_in_unknown _ _ _ _ Hcalm Hmood).
  - split; [exact (get_recommendations_in_known _ _ _ _ _ Hcalm Hcalm)|].
    split; [reflexivity | apply slice_to_positive].
Qed.

Lemma get_recommendations_unknown_mood_witness :
  exists calm_songs recs,
    lookup song_database "calm" = Some calm_songs /\
    get_recommendations "not-a-real-mood" 3 = Some recs /\
    get_recommendations "calm" 3 = Some recs /\
    recs = slice_to calm_songs 3 /\
    map title recs = ["Weightless"; "Clair de Lune"; "Breathe Me"]%string.
Proof.
  destruct (get_recommendations_unknown_mood "not-a-real-mood" 3 eq_refl)
    as (calm_songs & recs & Hcalm & Hget & Hsame & Hslice & _).
  exists calm_songs, recs. split; [exact Hcalm|]. split; [exact Hget|].
  split; [exact Hsame|]. split; [exact Hslice|].
  vm_compute in Hcalm. injection Hcalm as <-. rewrite Hslice. reflexivity.
Defined.

(** The three songs an unknown mood gets. *)
Example unknown_mood_gets_calm_songs :
  option_map (map title) (get_recommendations "not-a-real-mood" 3)
  = Some ["Weightless"; "Clair de Lune"; "Breathe Me"]%string.
Proof. reflexivity. Qed.

(** ** The pipeline *)

Lemma first_maximum_in_keys (d : dict Z) (best : string) (s : Z) :
  first_maximum d best s -> In best (keys d).
Proof.
  intros (before & after & -> & _ & _).
  unfold keys. rewrite map_app. apply in_or_app. right. now left.
Qed.

(** [detect_emotion] always answers, and with one of the nine emotions. *)
Lemma detect_emotion_total (U : UnicodeData) (text : str) :
  exists r,
    detect_emotion U text = Some r /\
    all_scores r = scores_of emotion_keywords U text /\
    In (emotion r) mood_order.
Proof.
  destruct (any (values (scores_of emotion_keywords U text))) eqn:Hany.
  - destruct (detect_maximum emotion_keywords emotion_keywords_NoDup U text Hany)
      as (best & s & Hfirst & _ & _ & Heq).
    eexists. split; [exact Heq|]. split; [reflexivity|].
    cbn [emotion]. rewrite <- (scores_of_keys U text).
    exact (first_maximum_in_keys _ _ _ Hfirst).
  - eexists. split; [exact (detect_default emotion_keywords U text Hany)|].
    split; [reflexivity|]. cbn [emotion]. unfold mood_order. simpl. tauto.
Qed.

Lemma catalog_of_mood (mood : string) :
  In mood mood_order ->
  exists songs, lookup song_database mood = Some songs /\ songs <> [].
Proof.
  unfold mood_order. simpl.
  intros Hin.
  repeat (destruct Hin as [<-|Hin];
          [eexists; split; [reflexivity | discriminate]|]).
  destruct Hin.
Qed.

Lemma song_lists_nonempty : Forall (fun item => snd item <> []) song_database.
Proof. unfold song_database. repeat (constructor; [discriminate|]). constructor. Qed.

(** C10: the keyword table and the catalog have the same keys in the same
    order, every list of the catalog has a song, and the mood
    [detect_emotion] returns is always a key of the catalog, so that
    [analyze_and_recommend] recommends from that mood's own list and never
    from the fallback. *)
Theorem detected_mood_in_catalog :
  keys emotion_keywords = keys song_database /\
  keys song_database = mood_order /\
  Forall (fun item => snd item <> []) song_database /\
  forall (U : UnicodeData) (text : str) (num_songs : Z),
  exists r songs resp,
    detect_emotion U text = Some r /\
    In (emotion r) (keys song_database) /\
    lookup song_database (emotion r) = Some songs /\
    songs <> [] /\
    MoodTuneAPI.analyze_and_recommend U text num_songs = Some resp /\
    MoodTuneAPI.detected_mood resp = emotion r /\
    MoodTuneAPI.recommendations resp = slice_to songs num_songs.
Proof.
  split; [reflexivity|]. split; [reflexivity|]. split; [exact song_lists_nonempty|].
  intros U text num_songs.
  destruct (detect_emotion_total U text) as (r & Hr & _ & Hin).
  destruct (catalog_of_mood _ Hin) as (songs & Hsongs & Hne).
  destruct song_database_has_calm as [default Hcalm].
  exists r, songs. eexists.
  split; [exact Hr|]. split; [rewrite song_database_keys; exact Hin|].
  split; [exact Hsongs|]. split; [exact Hne|].
  unfold MoodTuneAPI.analyze_and_recommend. rewrite Hr.
  unfold get_recommendations.
  rewrite (get_recommendations_in_known _ _ _ _ _ Hcalm Hsongs).
  split; [reflexivity|]. split; reflexivity.
Qed.

(** C9: on "I'm feeling so happy and excited today!" with 3 songs asked, the
    primary keywords happy and excited are the only keywords of happy that
    occur, its score is 6, the detected mood is happy with intensity high,
    and the three recommendations start with the first song of the happy
    list, Good Vibrations by The Beach Boys. *)
Theorem happy_and_excited_pipeline (U : UnicodeData) :
  exists resp ks first,
    MoodTuneAPI.analyze_and_recommend U
      (of_string "I'm feeling so happy and excited today!") 3 = Some resp /\
    MoodTuneAPI.detected_mood resp = "happy"%string /\
    MoodTuneAPI.intensity resp = "high"%string /\
    lookup emotion_keywords "happy" = Some ks /\
    filter (fun kw => contains (of_string kw)
                        (normalize U (of_string "I'm feeling so happy and excited today!")))
           (all_keywords ks)
    = ["happy"; "excited"]%string /\
    In "happy"%string (kw_primary ks) /\ In "excited"%string (kw_primary ks) /\
    lookup (MoodTuneAPI.emotion_scores resp) "happy" = Some 6%Z /\
    List.length (MoodTuneAPI.recommendations resp) = 3%nat /\
    hd_error (MoodTuneAPI.recommendations resp) = Some first /\
    option_map (@hd_error Song) (lookup song_database "happy") = Some (Some first) /\
    title first = "Good Vibrations"%string /\
    artist first = "The Beach Boys"%string.
Proof.
  do 3 eexists.
  split; [vm_compute; reflexivity|].
  split; [reflexivity|]. split; [reflexivity|].
  split; [reflexivity|].
  split; [vm_compute; reflexivity|].
  split; [simpl; tauto|]. split; [simpl; tauto|].
  split; [reflexivity|]. split; [reflexivity|]. split; [reflexivity|].
  split; [reflexivity|]. split; reflexivity.
Qed.

(** ** Normalization *)

Lemma ascii_lower_not_upper (c : codepoint) : ascii_isupper (ascii_lower c) = false.
Proof.
  unfold ascii_isupper, ascii_lower.
  destruct (N.leb_spec 65 c), (N.leb_spec c 90); simpl;
    apply andb_false_iff; rewrite !N.leb_gt; lia.
Qed.

Lemma ascii_lower_is_ascii (c : codepoint) :
  is_ascii c = true -> is_ascii (ascii_lower c) = true.
Proof.
  unfold is_ascii, ascii_lower. rewrite N.ltb_lt. intros Hc.
  destruct (N.leb_spec 65 c), (N.leb_spec c 90); simpl; apply N.ltb_lt; lia.
Qed.

Lemma lower_ascii (U : UnicodeData) (text : str) :
  forallb is_ascii text = true -> lower U text = map ascii_lower text.
Proof. intros Hascii. unfold lower. now rewrite Hascii. Qed.

Lemma space_is_space (U : UnicodeData) : isspace U space = true.
Proof. reflexivity. Qed.

(** What [normalize] leaves in the text is a word character or whitespace. *)
Lemma normalize_classes (U : UnicodeData) (text : str) :
  Forall (fun c => isalnum U c || (c =? underscore)%N || isspace U c = true)
         (normalize U text).
Proof.
  unfold normalize, sub_not_word_space, is_word.
  apply Forall_map, Forall_forall. intros c _.
  destruct (isalnum U c || (c =? underscore)%N || isspace U c) eqn:Hc.
  - exact Hc.
  - rewrite (space_is_space U). apply orb_true_r.
Qed.

Lemma normalize_ascii_classes (U : UnicodeData) (text : str) :
  forallb is_ascii text = true ->
  Forall (fun c => ascii_islower c || ascii_isdigit c || (c =? underscore)%N
                   || ascii_isspace c = true)
         (normalize U text).
Proof.
  intros Hascii. unfold normalize. rewrite (lower_ascii U text Hascii).
  unfold sub_not_word_space. rewrite map_map.
  apply Forall_map, Forall_forall. intros c Hin.
  rewrite forallb_forall in Hascii. specialize (Hascii c Hin).
  pose proof (ascii_lower_is_ascii c Hascii) as Hlow.
  pose proof (ascii_lower_not_upper c) as Hup.
  unfold is_word, isalnum, isspace, ascii_isalnum. rewrite Hlow, Hup.
  destruct (ascii_isdigit (ascii_lower c)) eqn:Hd,
    (ascii_islower (ascii_lower c)) eqn:Hl,
    (ascii_lower c =? underscore)%N eqn:Hu,
    (ascii_isspace (ascii_lower c)) eqn:Hs;
    cbn [orb]; rewrite ?Hd, ?Hl, ?Hu, ?Hs; reflexivity.
Qed.

Lemma normalize_without_underscore (U : UnicodeData) (text : str) :
  ~ In underscore (lower U text) -> normalize U text = normalize_as_specified U text.
Proof.
  intros Hno. unfold normalize, normalize_as_specified, sub_not_word_space.
  apply map_ext_in. intros c Hin. unfold is_word.
  destruct (N.eqb_spec c underscore) as [->|_]; [contradiction|].
  now rewrite orb_false_r.
Qed.

(** C7, as the code has it: [normalize] lowers the text and then replaces by
    a space every character that is not a letter, a digit, the underscore or
    whitespace, one for one; what remains is word characters and whitespace
    (for an ASCII text: lowercase letters, digits, underscores and
    whitespace); without an underscore in the lowered text this is the
    normalization of the specification; and [detect_emotion] raises nothing
    on any text. *)
Theorem normalize_keeps_word_characters (U : UnicodeData) (text : str) :
  normalize U text
  = map (fun c => if isalnum U c || (c =? underscore)%N || isspace U c
                  then c else space)
        (lower U text) /\
  List.length (normalize U text) = List.length (lower U text) /\
  Forall (fun c => isalnum U c || (c =? underscore)%N || isspace U c = true)
         (normalize U text) /\
  (forallb is_ascii text = true ->
   Forall (fun c => ascii_islower c || ascii_isdigit c || (c =? underscore)%N
                    || ascii_isspace c = true)
          (normalize U text)) /\
  (~ In underscore (lower U text) ->
   normalize U text = normalize_as_specified U text) /\
  exists r, detect_emotion U text = Some r.
Proof.
  split; [reflexivity|].
  split; [unfold normalize, sub_not_word_space; apply length_map|].
  split; [apply normalize_classes|].
  split; [apply normalize_ascii_classes|].
  split; [apply normalize_without_underscore|].
  destruct (detect_emotion_total U text) as (r & Hr & _). now exists r.
Qed.

Lemma normalize_keeps_word_characters_witness :
  Forall (fun c => ascii_islower c || ascii_isdigit c || (c =? underscore)%N
                   || ascii_isspace c = true)
         (normalize ascii_only (of_string "Don't STOP me_now 2day!")) /\
  normalize ascii_only (of_string "Don't STOP me now!")
  = normalize_as_specified ascii_only (of_string "Don't STOP me now!").
Proof.
  split.
  - apply (normalize_keeps_word_characters ascii_only
             (of_string "Don't STOP me_now 2day!")).
    reflexivity.
  - apply (normalize_keeps_word_characters ascii_only (of_string "Don't STOP me now!")).
    vm_compute. intuition discriminate.
Defined.

(** The underscore is not a letter, a digit or whitespace, and it stays. *)
Lemma underscore_is_kept :
  isalnum ascii_only underscore = false /\
  isspace ascii_only underscore = false /\
  normalize ascii_only (of_string "a_b") = of_string "a_b" /\
  normalize_as_specified ascii_only (of_string "a_b") = of_string "a b" /\
  normalize ascii_only (of_string "a_b")
  <> normalize_as_specified ascii_only (of_string "a_b").
Proof. repeat split; try reflexivity. vm_compute. discriminate. Qed.

(** ** Words and keyword search *)

Section Words.

Variable U : UnicodeData.

Lemma starts_with_before_separator (k a b : str) (s : codepoint) :
  ~ In s k -> starts_with k (a ++ s :: b) = starts_with k a.
Proof.
  revert k. induction a as [|y a IH]; intros k Hnot; destruct k as [|x k]; simpl;
    try reflexivity.
  - destruct (N.eqb_spec x s) as [->|_]; [|reflexivity].
    exfalso. apply Hnot. now left.
  - rewrite IH; [reflexivity|]. intros Hin. apply Hnot. now right.
Qed.

Lemma lowercase_not_space (c : codepoint) :
  ascii_islower c = true -> isspace U c = false.
Proof.
  unfold ascii_islower, isspace, is_ascii, ascii_isspace.
  rewrite andb_true_iff, !N.leb_le. intros [H1 H2].
  destruct (N.ltb_spec c 128); [|lia].
  apply orb_false_iff. split; apply andb_false_iff; rewrite !N.leb_gt; lia.
Qed.

(** A lowercase ASCII letter is never what a separator is normalized to. *)
Lemma separator_not_in_keyword (k : str) (s : codepoint) :
  forallb ascii_islower k = true ->
  is_separator U s = true -> ~ In (kept U s) k.
Proof.
  intros Hk Hsep Hin. rewrite forallb_forall in Hk. specialize (Hk _ Hin).
  unfold kept in Hk. unfold is_separator in Hsep.
  destruct (is_word U s); simpl in Hsep, Hk.
  - apply lowercase_not_space in Hk. congruence.
  - destruct (isspace U s) eqn:Hs.
    + apply lowercase_not_space in Hk. congruence.
    + vm_compute in Hk. discriminate Hk.
Qed.

Lemma not_separator_kept (c : codepoint) :
  is_separator U c = false -> kept U c = c.
Proof.
  unfold is_separator, kept. intros Hsep. apply orb_false_iff in Hsep.
  destruct Hsep as [Hw _]. apply negb_false_iff in Hw. now rewrite Hw.
Qed.

(** The first piece of a text is the normalized text up to its first
    separator. *)
Lemma split_separators_head (t : str) :
  exists w ws,
    split_separators U t = w :: ws /\
    (map (kept U) t = w \/
     exists s rest,
       is_separator U s = true /\ map (kept U) t = w ++ kept U s :: rest).
Proof.
  induction t as [|c t IH]; simpl.
  - exists [], []. split; [reflexivity | now left].
  - destruct IH as (w & ws & Hsplit & Hshape).
    destruct (is_separator U c) eqn:Hsep.
    + exists [], (split_separators U t). split; [reflexivity|].
      right. exists c, (map (kept U) t). split; [exact Hsep | reflexivity].
    + rewrite Hsplit. exists (c :: w), ws. split; [reflexivity|].
      rewrite (not_separator_kept c Hsep).
      destruct Hshape as [->|(s & rest & Hs & ->)]; [now left|].
      right. exists s, rest. split; [exact Hs | reflexivity].
Qed.

Lemma starts_with_first_piece (k t w : str) (ws : list str) :
  forallb ascii_islower k = true ->
  split_separators U t = w :: ws ->
  starts_with k (map (kept U) t) = starts_with k w.
Proof.
  intros Hk Hsplit.
  destruct (split_separators_head t) as (w' & ws' & Hsplit' & Hshape).
  rewrite Hsplit in Hsplit'. injection Hsplit' as <- <-.
  destruct Hshape as [->|(s & rest & Hs & ->)]; [reflexivity|].
  apply starts_with_before_separator. now apply separator_not_in_keyword.
Qed.

(** A keyword of lowercase letters occurs in the normalized text exactly when
    it occurs in one of the pieces between separators. *)
Lemma contains_pieces (k t : str) :
  forallb ascii_islower k = true ->
  contains k (map (kept U) t) = existsb (contains k) (split_separators U t).
Proof.
  intros Hk. induction t as [|c t IH].
  - cbn [map split_separators existsb]. now rewrite orb_false_r.
  - cbn [map contains split_separators]. destruct (is_separator U c) eqn:Hsep.
    + cbn [existsb contains]. rewrite <- IH, orb_false_r.
      f_equal.
      apply (starts_with_before_separator k [] (map (kept U) t) (kept U c)).
      now apply separator_not_in_keyword.
    + rewrite (not_separator_kept c Hsep).
      destruct (split_separators_head t) as (w & ws & Hsplit & _).
      rewrite Hsplit in *. cbn [existsb contains] in *.
      rewrite IH, orb_assoc. f_equal. f_equal.
      destruct k as [|a k]; [reflexivity|]. cbn [starts_with].
      f_equal. apply starts_with_first_piece with (ws := ws); [|exact Hsplit].
      simpl in Hk. apply andb_true_iff in Hk. apply Hk.
Qed.

Lemma contains_nonempty (k w : str) :
  k <> [] -> contains k w = true -> Nat.eqb (List.length w) 0 = false.
Proof.
  intros Hk Hc. destruct w as [|c w]; [|reflexivity].
  destruct k; [congruence | discriminate].
Qed.

Lemma existsb_filter_nonempty (k : str) (pieces : list str) :
  k <> [] ->
  existsb (contains k) (filter (fun w => negb (Nat.eqb (List.length w) 0)) pieces)
  = existsb (contains k) pieces.
Proof.
  intros Hk. induction pieces as [|w pieces IH]; simpl; [reflexivity|].
  destruct (contains k w) eqn:Hc.
  - rewrite (contains_nonempty k w Hk Hc). simpl. now rewrite Hc.
  - destruct (negb (Nat.eqb (List.length w) 0)); simpl; rewrite ?Hc; exact IH.
Qed.

(** The search of a plain keyword in the normalized text sees only the words
    of the lowered text. *)
Lemma contains_words (kw : string) (text : str) :
  plain_keyword kw = true ->
  contains (of_string kw) (normalize U text)
  = existsb (contains (of_string kw)) (words U (lower U text)).
Proof.
  unfold plain_keyword. intros Hkw. apply andb_true_iff in Hkw.
  destruct Hkw as [Hlen Hlow].
  unfold normalize, sub_not_word_space, words.
  rewrite existsb_filter_nonempty.
  - exact (contains_pieces (of_string kw) (lower U text) Hlow).
  - intros Hnil. rewrite Hnil in Hlen. discriminate.
Qed.

End Words.

(** Scores depend on the text only through the searches of the keywords. *)
Lemma score_table_same_searches (table : dict KeywordSets) (n1 n2 : str) :
  plain_table table = true ->
  (forall kw, plain_keyword kw = true ->
              contains (of_string kw) n1 = contains (of_string kw) n2) ->
  score_table table n1 = score_table table n2.
Proof.
  intros Hplain Hsame. unfold score_table. apply map_ext_in.
  intros item Hin. f_equal.
  unfold plain_table in Hplain. rewrite forallb_forall in Hplain.
  specialize (Hplain item Hin). unfold all_keywords in Hplain.
  rewrite !forallb_app, !andb_true_iff in Hplain.
  destruct Hplain as (Hp & Hs & Hi).
  assert (Hhits : forall kws, forallb plain_keyword kws = true ->
                              hits kws n1 = hits kws n2).
  { intros kws Hkws. unfold hits. do 2 f_equal. apply filter_ext_in.
    intros kw Hkw. rewrite forallb_forall in Hkws. now apply Hsame, Hkws. }
  rewrite !emotion_score_eq, (Hhits _ Hp), (Hhits _ Hs), (Hhits _ Hi).
  reflexivity.
Qed.

Lemma score_table_same_words (U : UnicodeData) (table : dict KeywordSets)
    (t1 t2 : str) :
  plain_table table = true ->
  words U (lower U t1) = words U (lower U t2) ->
  score_table table (normalize U t1) = score_table table (normalize U t2).
Proof.
  intros Hplain Hwords. apply score_table_same_searches; [exact Hplain|].
  intros kw Hkw. rewrite !contains_words by exact Hkw. now rewrite Hwords.
Qed.

Lemma detect_emotion_with_scores (table : dict KeywordSets) (U : UnicodeData)
    (t1 t2 : str) :
  score_table table (normalize U t1) = score_table table (normalize U t2) ->
  detect_emotion_with table U t1 = detect_emotion_with table U t2.
Proof. intros Heq. unfold detect_emotion_with. now rewrite Heq. Qed.

Lemma emotion_keywords_plain : plain_table emotion_keywords = true.
Proof. vm_compute. reflexivity. Qed.

(** C6, as the code has it: two texts whose lowered forms have the same
    sequence of words, a word being a maximal run of characters other than
    punctuation and whitespace, get the same result from [detect_emotion].
    Changes of case that lower to the same text and punctuation added or
    removed without joining or cutting a word are of this kind. *)
Theorem detect_emotion_same_words (U : UnicodeData) (t1 t2 : str) :
  words U (lower U t1) = words U (lower U t2) ->
  detect_emotion U t1 = detect_emotion U t2.
Proof.
  intros Hwords. unfold detect_emotion.
  apply detect_emotion_with_scores.
  apply score_table_same_words; [exact emotion_keywords_plain | exact Hwords].
Qed.

Lemma detect_emotion_same_words_witness :
  detect_emotion ascii_only (of_string "I'm SO Happy!!")
  = detect_emotion ascii_only (of_string "  i m ... so, happy").
Proof.
  apply (detect_emotion_same_words ascii_only). vm_compute. reflexivity.
Defined.

(** A hyphen put inside a word leaves the letters as they were and changes
    the answer: the hyphen becomes a space and the keyword is cut. *)
Lemma punctuation_inside_a_word :
  is_punctuation ascii_only 45%N = true /\
  alnum_sequence ascii_only (of_string "hap-py")
  = alnum_sequence ascii_only (of_string "happy") /\
  normalize ascii_only (of_string "hap-py") = of_string "hap py" /\
  option_map emotion (detect_emotion ascii_only (of_string "happy"))
  = Some "happy"%string /\
  option_map emotion (detect_emotion ascii_only (of_string "hap-py"))
  = Some "calm"%string /\
  detect_emotion ascii_only (of_string "hap-py")
  <> detect_emotion ascii_only (of_string "happy").
Proof.
  repeat split; try (vm_compute; reflexivity).
  intros Heq. apply (f_equal (option_map emotion)) in Heq.
  vm_compute in Heq. discriminate Heq.
Qed.

(** The example of the specification holds: no keyword runs across the
    apostrophe. *)
Example im_happy_example :
  detect_emotion ascii_only (of_string "I'm HAPPY!!")
  = detect_emotion ascii_only (of_string "im happy").
Proof. vm_compute. reflexivity. Qed.

(** ** What the underscore changes, and what the Unicode database changes *)

Section Substitution.

Variable k : str.
Hypothesis k_lowercase : forallb ascii_islower k = true.

Lemma starts_with_substituted (t1 t2 : str) :
  Forall2 same_for_keywords t1 t2 -> starts_with k t1 = starts_with k t2.
Proof.
  intros Hsame. revert k k_lowercase.
  induction Hsame as [|a b t1 t2 Hab _ IH]; intros k Hk; destruct k as [|x k'];
    try reflexivity.
  simpl in Hk. apply andb_true_iff in Hk. destruct Hk as [Hx Hk'].
  cbn [starts_with]. rewrite (IH k' Hk'). f_equal.
  destruct Hab as [->|[Ha Hb]]; [reflexivity|].
  destruct (N.eqb_spec x a) as [->|_]; [congruence|].
  destruct (N.eqb_spec x b) as [->|_]; [congruence | reflexivity].
Qed.

Lemma contains_substituted (t1 t2 : str) :
  Forall2 same_for_keywords t1 t2 -> contains k t1 = contains k t2.
Proof.
  induction 1 as [|a b t1 t2 Hab Hrest IH]; [reflexivity|].
  cbn [contains]. rewrite IH. f_equal.
  apply starts_with_substituted. now constructor.
Qed.

Lemma contains_mapped (f g : codepoint -> codepoint) (t : str) :
  (forall c, same_for_keywords (f c) (g c)) ->
  contains k (map f t) = contains k (map g t).
Proof.
  intros Hfg. apply contains_substituted.
  induction t as [|c t IH]; simpl; constructor; auto.
Qed.

End Substitution.

(** The underscore that the code keeps and the specification replaces is in
    no keyword: the scores, and so the result, are those of the
    specification's normalization. *)
Lemma underscore_not_observable (U : UnicodeData) (text : str) :
  score_table emotion_keywords (normalize U text)
  = score_table emotion_keywords (normalize_as_specified U text).
Proof.
  apply score_table_same_searches; [exact emotion_keywords_plain|].
  intros kw Hkw. unfold plain_keyword in Hkw. apply andb_true_iff in Hkw.
  destruct Hkw as [_ Hlow].
  unfold normalize, normalize_as_specified, sub_not_word_space.
  apply (contains_mapped _ Hlow). intros c. unfold is_word.
  destruct (N.eqb_spec c underscore) as [->|_].
  - right. rewrite orb_true_r. cbn [orb]. split; vm_compute; reflexivity.
  - left. now rewrite orb_false_r.
Qed.

(** On an ASCII text the Unicode database is never consulted. *)
Lemma normalize_ascii_independent (U U' : UnicodeData) (text : str) :
  forallb is_ascii text = true -> normalize U text = normalize U' text.
Proof.
  intros Hascii. unfold normalize.
  rewrite (lower_ascii U text Hascii), (lower_ascii U' text Hascii).
  unfold sub_not_word_space. apply map_ext_in. intros d Hd.
  apply in_map_iff in Hd. destruct Hd as (c & <- & Hc).
  rewrite forallb_forall in Hascii.
  pose proof (ascii_lower_is_ascii c (Hascii c Hc)) as Hlow.
  unfold is_word, isalnum, isspace. now rewrite Hlow.
Qed.

Lemma detect_emotion_ascii_independent (U U' : UnicodeData) (text : str) :
  forallb is_ascii text = true -> detect_emotion U text = detect_emotion U' text.
Proof.
  intros Hascii. unfold detect_emotion, detect_emotion_with.
  now rewrite (normalize_ascii_independent U U' text Hascii).
Qed.

(** Two ASCII texts that differ only in the case of their letters get the
    same result. *)
Lemma detect_emotion_ascii_case (U : UnicodeData) (t1 t2 : str) :
  forallb is_ascii t1 = true -> forallb is_ascii t2 = true ->
  map ascii_lower t1 = map ascii_lower t2 ->
  detect_emotion U t1 = detect_emotion U t2.
Proof.
  intros H1 H2 Heq. unfold detect_emotion, detect_emotion_with, normalize.
  now rewrite (lower_ascii U t1 H1), (lower_ascii U t2 H2), Heq.
Qed.

(** * Further properties of the code *)

(** ** The detector sees a set of words *)

Lemma existsb_same_members {A} (p : A -> bool) (l1 l2 : list A) :
  (forall x, In x l1 -> In x l2) -> existsb p l1 = true -> existsb p l2 = true.
Proof.
  intros Hincl Hex. apply existsb_exists in Hex. destruct Hex as (x & Hin & Hp).
  apply existsb_exists. exists x. auto.
Qed.

Lemma filter_length_monotone {A} (p q : A -> bool) (l : list A) :
  (forall x, In x l -> p x = true -> q x = true) ->
  (List.length (filter p l) <= List.length (filter q l))%nat.
Proof.
  induction l as [|x l IH]; intros Hpq; simpl; [lia|].
  assert (IH' : (List.length (filter p l) <= List.length (filter q l))%nat).
  { apply IH. intros y Hy. apply Hpq. now right. }
  destruct (p x) eqn:Hp.
  - rewrite (Hpq x (or_introl eq_refl) Hp). simpl. lia.
  - destruct (q x); simpl; lia.
Qed.

(** X1: the result of [detect_emotion] depends only on which words the
    lowered text has: two texts with the same set of words, in any order and
    any number of times, get the same result. *)
Theorem detect_emotion_word_set (U : UnicodeData) (t1 t2 : str) :
  (forall w, In w (words U (lower U t1)) <-> In w (words U (lower U t2))) ->
  detect_emotion U t1 = detect_emotion U t2.
Proof.
  intros Hsame. unfold detect_emotion. apply detect_emotion_with_scores.
  apply score_table_same_searches; [exact emotion_keywords_plain|].
  intros kw Hkw. rewrite !contains_words by exact Hkw.
  destruct (existsb (contains (of_string kw)) (words U (lower U t1))) eqn:H1;
    destruct (existsb (contains (of_string kw)) (words U (lower U t2))) eqn:H2;
    try reflexivity.
  - apply (existsb_same_members _ _ (words U (lower U t2))) in H1; [congruence|].
    intros w. apply Hsame.
  - apply (existsb_same_members _ _ (words U (lower U t1))) in H2; [congruence|].
    intros w. apply Hsame.
Qed.

Lemma detect_emotion_word_set_witness :
  detect_emotion ascii_only (of_string "Happy, but tired and sad")
  = detect_emotion ascii_only (of_string "sad and tired but HAPPY... sad, sad!").
Proof.
  apply (detect_emotion_word_set ascii_only). intros w.
  vm_compute. tauto.
Defined.

(** X2: a text that has all the words of another scores at least as much
    for every emotion: more words never lower a score. *)
Theorem scores_grow_with_words (U : UnicodeData) (t1 t2 : str) :
  (forall w, In w (words U (lower U t1)) -> In w (words U (lower U t2))) ->
  scores_le (scores_of emotion_keywords U t1) (scores_of emotion_keywords U t2).
Proof.
  intros Hincl. unfold scores_le, scores_of, score_table.
  pose proof emotion_keywords_plain as Hplain. unfold plain_table in Hplain.
  rewrite forallb_forall in Hplain.
  induction emotion_keywords as [|item table IH]; simpl; constructor.
  - split; [reflexivity|]. simpl.
    specialize (Hplain item (or_introl eq_refl)). unfold all_keywords in Hplain.
    rewrite !forallb_app, !andb_true_iff in Hplain. destruct Hplain as (Hp & Hs & Hi).
    assert (Hhits : forall kws, forallb plain_keyword kws = true ->
                    (hits kws (normalize U t1) <= hits kws (normalize U t2))%Z).
    { intros kws Hkws. unfold hits. apply inj_le, filter_length_monotone.
      intros kw Hin. rewrite forallb_forall in Hkws.
      rewrite !contains_words by now apply Hkws.
      now apply existsb_same_members. }
    rewrite !emotion_score_eq.
    pose proof (Hhits _ Hp). pose proof (Hhits _ Hs). pose proof (Hhits _ Hi). lia.
  - apply IH. intros it Hit. apply Hplain. now right.
Qed.

Lemma scores_grow_with_words_witness :
  scores_le (scores_of emotion_keywords ascii_only (of_string "a calm day"))
            (scores_of emotion_keywords ascii_only
               (of_string "What a calm, peaceful and happy day!")).
Proof.
  apply (scores_grow_with_words ascii_only). intros w. vm_compute. tauto.
Defined.

(** ** Keywords inside words, and the confidence *)

Lemma hits_positive (keywords : list string) (kw : string) (text_clean : str) :
  In kw keywords -> contains (of_string kw) text_clean = true ->
  (1 <= hits keywords text_clean)%Z.
Proof.
  intros Hin Hc. unfold hits.
  assert (Hf : In kw (filter (fun kw => contains (of_string kw) text_clean) keywords))
    by (apply filter_In; now split).
  destruct (filter _ keywords); [destruct Hf | simpl; lia].
Qed.

Lemma score_in_values (table : dict KeywordSets) (mood : string) (ks : KeywordSets)
    (text_clean : str) :
  In (mood, ks) table ->
  In (emotion_score ks text_clean) (values (score_table table text_clean)).
Proof.
  intros Hin. rewrite values_score_table. apply in_map_iff.
  exists (mood, ks). split; [reflexivity | exact Hin].
Qed.

Lemma keyword_table_plain (mood : string) (ks : KeywordSets) (kw : string) :
  In (mood, ks) emotion_keywords -> In kw (all_keywords ks) -> plain_keyword kw = true.
Proof.
  intros Hin Hkw. pose proof emotion_keywords_plain as Hplain.
  unfold plain_table in Hplain. rewrite forallb_forall in Hplain.
  specialize (Hplain _ Hin). rewrite forallb_forall in Hplain. now apply Hplain.
Qed.

(** X3: keywords are searched as substrings: when an intensity keyword of
    any emotion occurs inside some word of the lowered text, even as a part of
    a longer word, the intensity returned is high. *)
Theorem intensity_keyword_gives_high (U : UnicodeData) (text : str)
    (mood kw : string) (ks : KeywordSets) (w : str) :
  In (mood, ks) emotion_keywords ->
  In kw (kw_intensity ks) ->
  In w (words U (lower U text)) ->
  contains (of_string kw) w = true ->
  exists r,
    detect_emotion U text = Some r /\
    MoodDetector.intensity r = "high"%string /\
    (5 <= max_value (values (all_scores r)))%Z.
Proof.
  intros Hmood Hkw Hw Hcontains.
  assert (Hplain : plain_keyword kw = true).
  { apply (keyword_table_plain mood ks); [exact Hmood|].
    unfold all_keywords. apply in_or_app. right. apply in_or_app. now right. }
  assert (Hfound : contains (of_string kw) (normalize U text) = true).
  { rewrite (contains_words U kw text Hplain). apply existsb_exists. now exists w. }
  pose proof (hits_positive _ _ _ Hkw Hfound) as Hhits.
  pose proof (hits_bounds (normalize U text) (kw_primary ks)) as Hp.
  pose proof (hits_bounds (normalize U text) (kw_secondary ks)) as Hs.
  assert (Hscore : (5 <= emotion_score ks (normalize U text))%Z)
    by (rewrite emotion_score_eq; lia).
  pose proof (max_value_lower _ _
                (score_in_values emotion_keywords mood ks (normalize U text) Hmood))
    as Hmax.
  fold (scores_of emotion_keywords U text) in Hmax.
  assert (Hany : any (values (scores_of emotion_keywords U text)) = true).
  { apply any_iff_max_value; [apply scores_nonneg | lia]. }
  destruct (detect_maximum emotion_keywords emotion_keywords_NoDup U text Hany)
    as (best & s & _ & _ & Hs' & Heq).
  eexists. split; [exact Heq|].
  cbn [all_scores MoodDetector.intensity]. split; [|lia].
  unfold intensity_of. destruct (Z.leb_spec 5 s); [reflexivity | lia].
Qed.

(** "thrilled" inside "thrilledest". *)
Lemma intensity_keyword_gives_high_witness :
  exists r,
    detect_emotion ascii_only (of_string "the THRILLEDEST crowd") = Some r /\
    MoodDetector.intensity r = "high"%string /\
    (5 <= max_value (values (all_scores r)))%Z.
Proof.
  eapply (intensity_keyword_gives_high ascii_only _ "happy"%string
            "thrilled"%string _ (of_string "thrilledest")).
  - left. reflexivity.
  - simpl. tauto.
  - vm_compute. tauto.
  - vm_compute. reflexivity.
Defined.

Lemma sum_le_length_max (vs : list Z) :
  (sum vs <= Z.of_nat (List.length vs) * max_value vs)%Z.
Proof.
  induction vs as [|v vs IH].
  - reflexivity.
  - rewrite sum_cons. cbn [List.length max_value fold_right].
    fold (max_value vs). pose proof (max_value_nonneg vs). nia.
Qed.

Lemma clamp_table_sound (max_w : nat) :
  clamp_table_check max_w = true ->
  forall w total : Z,
    (1 <= w <= Z.of_nat max_w)%Z -> (w <= total <= 9 * w)%Z ->
    clamp_check w total = true.
Proof.
  unfold clamp_table_check. intros Htab w total Hw Ht.
  rewrite forallb_forall in Htab.
  assert (Hin : In w (zrange 1 max_w)) by (apply in_zrange; lia).
  specialize (Htab w Hin). rewrite forallb_forall in Htab.
  apply Htab. apply in_zrange. lia.
Qed.

Lemma clamp_table : clamp_table_check 50 = true.
Proof. vm_compute. reflexivity. Qed.

Lemma clamp_check_sound (w total : Z) :
  clamp_check w total = true ->
  py_min (truediv w (total + 1)) 1.0 = truediv w (total + 1) /\
  exists n, confidence_of w total = truediv n 100 /\ (10 <= n <= 98)%Z.
Proof.
  unfold clamp_check, confidence_of, py_round. intros Hcheck.
  apply andb_true_iff in Hcheck. destruct Hcheck as [Hlt Hround].
  apply negb_true_iff in Hlt.
  split; [unfold py_min; now rewrite Hlt|].
  destruct (scaled_round (py_min (truediv w (total + 1)) 1) 2) as [n|];
    [|discriminate].
  rewrite andb_true_iff, !Z.leb_le in Hround.
  exists n. split; [reflexivity | exact Hround].
Qed.

(** X4: when some keyword occurs, the total is at most nine times the
    winning score, the quotient [w / (total + 1)] is never above 1.0, so that
    the clamp of [min] changes nothing, and the confidence is [n / 100] for an
    [n] between 10 and 98: it is never 1.0 and never below 0.1. *)
Theorem confidence_never_clamped (U : UnicodeData) (text : str) :
  some_keyword_matches emotion_keywords (normalize U text) = true ->
  exists r n w total,
    detect_emotion U text = Some r /\
    w = max_value (values (all_scores r)) /\
    total = sum (values (all_scores r)) /\
    (w <= total <= 9 * w)%Z /\
    py_min (truediv w (total + 1)) 1.0 = truediv w (total + 1) /\
    MoodDetector.confidence r = truediv n 100 /\
    (10 <= n <= 98)%Z.
Proof.
  intros Hmatch. rewrite <- any_scores_iff_match in Hmatch.
  change (any (values (scores_of emotion_keywords U text)) = true) in Hmatch.
  destruct (detect_maximum emotion_keywords emotion_keywords_NoDup U text Hmatch)
    as (best & s & Hfirst & _ & Hmax & Heq).
  destruct (winning_score_range U text best s Hmatch Hfirst Hmax) as [Hs Ht].
  assert (Hnine : (sum (values (scores_of emotion_keywords U text)) <= 9 * s)%Z).
  { pose proof (sum_le_length_max (values (scores_of emotion_keywords U text))) as Hle.
    rewrite Hmax in Hle.
    assert (Hlen : List.length (values (scores_of emotion_keywords U text)) = 9%nat).
    { unfold values. rewrite length_map.
      rewrite <- (length_map fst). fold (keys (scores_of emotion_keywords U text)).
      now rewrite scores_of_keys. }
    rewrite Hlen in Hle. exact Hle. }
  assert (Hcheck : clamp_check s (sum (values (scores_of emotion_keywords U text))) = true)
    by (apply (clamp_table_sound 50 clamp_table); lia).
  destruct (clamp_check_sound _ _ Hcheck) as (Hmin & n & Hn & Hrange).
  eexists. exists n, s, (sum (values (scores_of emotion_keywords U text))).
  split; [exact Heq|]. cbn [all_scores MoodDetector.confidence].
  split; [now symmetry|]. split; [reflexivity|].
  split; [lia|]. split; [exact Hmin|]. split; assumption.
Qed.

Lemma confidence_never_clamped_witness :
  exists r n w total,
    detect_emotion ascii_only (of_string "zen") = Some r /\
    w = max_value (values (all_scores r)) /\
    total = sum (values (all_scores r)) /\
    (w <= total <= 9 * w)%Z /\
    py_min (truediv w (total + 1)) 1.0 = truediv w (total + 1) /\
    MoodDetector.confidence r = truediv n 100 /\
    (10 <= n <= 98)%Z.
Proof.
  apply (confidence_never_clamped ascii_only (of_string "zen")).
  vm_compute. reflexivity.
Defined.

Lemma scores_within_bounds (table : dict KeywordSets) (text_clean : str) :
  Forall2 (fun v b => 0 <= v <= b)%Z
          (values (score_table table text_clean))
          (map (fun item => weight_bound (snd item)) table).
Proof.
  rewrite values_score_table.
  induction table as [|item table IH]; simpl; constructor.
  - apply emotion_score_bounds.
  - exact IH.
Qed.

(** X5: for every text the scores returned list the nine emotions in the
    order of the table, each score between 0 and what all the keywords of the
    emotion together weigh (50 for happy, 46 for sad, ...), and their sum is
    at most 377. *)
Theorem scores_always_bounded (U : UnicodeData) (text : str) :
  exists r,
    detect_emotion U text = Some r /\
    keys (all_scores r) = mood_order /\
    Forall2 (fun v b => 0 <= v <= b)%Z (values (all_scores r))
            [50; 46; 43; 38; 42; 42; 42; 32; 42]%Z /\
    (0 <= sum (values (all_scores r)) <= 377)%Z.
Proof.
  destruct (detect_emotion_total U text) as (r & Hr & Hscores & _).
  exists r. split; [exact Hr|]. rewrite Hscores.
  split; [apply scores_of_keys|]. split.
  - exact (scores_within_bounds emotion_keywords (normalize U text)).
  - split.
    + apply sum_nonneg, scores_nonneg.
    + pose proof (sum_le_pointwise _ _
                    (scores_bounded (normalize U text) emotion_keywords)) as Hsum.
      rewrite weight_bounds_sum in Hsum. exact Hsum.
Qed.

(** ** The recommender on every limit *)

Lemma lookup_In {V} (d : dict V) (k : string) (v : V) :
  lookup d k = Some v -> In (k, v) d.
Proof.
  induction d as [|[k' v'] d IH]; simpl; [discriminate|].
  destruct (String.eqb_spec k k') as [->|_].
  - intros [= ->]. now left.
  - intros H. right. now apply IH.
Qed.

Lemma song_lists_have_five (mood : string) (songs : list Song) :
  lookup song_database mood = Some songs -> List.length songs = 5%nat.
Proof.
  intros Hlook. apply lookup_In in Hlook.
  assert (Hall : Forall (fun item => List.length (snd item) = 5%nat) song_database)
    by (unfold song_database; repeat constructor).
  rewrite Forall_forall in Hall. exact (Hall _ Hlook).
Qed.

(** The list [get_recommendations] slices: the mood's own, or calm's. *)
Lemma get_recommendations_source (mood : string) (limit : Z) :
  exists songs,
    (lookup song_database mood = Some songs \/
     lookup song_database mood = None /\ lookup song_database "calm" = Some songs) /\
    List.length songs = 5%nat /\
    get_recommendations mood limit = Some (slice_to songs limit).
Proof.
  destruct song_database_has_calm as [default Hcalm].
  destruct (lookup song_database mood) as [songs|] eqn:Hmood.
  - exists songs. split; [now left|]. split; [exact (song_lists_have_five _ _ Hmood)|].
    exact (get_recommendations_in_known _ _ _ _ _ Hcalm Hmood).
  - exists default. split; [right; now split|].
    split; [exact (song_lists_have_five _ _ Hcalm)|].
    exact (get_recommendations_in_unknown _ _ _ _ Hcalm Hmood).
Qed.

(** X6: [get_recommendations] accepts every limit and never raises: with
    [limit >= 0] it returns the first [limit] of the five songs of the mood
    (of calm for an unknown mood), with a negative [limit] all but the last
    [-limit] of them, so nothing for 0 and for -5 and below; the result is
    always a prefix of the list and has at most five songs. *)
Theorem get_recommendations_any_limit (mood : string) (limit : Z) :
  exists songs recs rest,
    (lookup song_database mood = Some songs \/
     lookup song_database mood = None /\ lookup song_database "calm" = Some songs) /\
    get_recommendations mood limit = Some recs /\
    recs = firstn (Z.to_nat (if (limit <? 0)%Z then 5 + limit else limit)%Z) songs /\
    songs = recs ++ rest /\
    (List.length recs <= 5)%nat.
Proof.
  destruct (get_recommendations_source mood limit) as (songs & Hsrc & Hlen & Hget).
  assert (Hslice : slice_to songs limit
                   = firstn (Z.to_nat (if (limit <? 0)%Z then 5 + limit else limit)%Z)
                            songs).
  { unfold slice_to. rewrite Hlen. destruct (limit <? 0)%Z; [|reflexivity].
    f_equal. lia. }
  exists songs, (slice_to songs limit).
  exists (skipn (Z.to_nat (if (limit <? 0)%Z then 5 + limit else limit)%Z) songs).
  split; [exact Hsrc|]. split; [exact Hget|]. split; [exact Hslice|].
  rewrite Hslice. split; [symmetry; apply firstn_skipn|].
  rewrite length_firstn, Hlen. lia.
Qed.

Lemma distinct_strings_NoDup (l : list string) :
  distinct_strings l = true -> NoDup l.
Proof.
  induction l as [|x l IH]; simpl; intros H; constructor.
  - apply andb_true_iff in H. destruct H as [Hx _].
    apply negb_true_iff in Hx. intros Hin.
    assert (Hex : existsb (String.eqb x) l = true).
    { apply existsb_exists. exists x. split; [exact Hin | apply String.eqb_refl]. }
    congruence.
  - apply IH. apply andb_true_iff in H. apply H.
Qed.

Lemma all_titles_distinct : NoDup (all_titles song_database).
Proof. apply distinct_strings_NoDup. vm_compute. reflexivity. Qed.

Lemma NoDup_app_parts {A} (l1 l2 : list A) :
  NoDup (l1 ++ l2) ->
  NoDup l1 /\ NoDup l2 /\ forall x, In x l1 -> In x l2 -> False.
Proof.
  induction l1 as [|a l1 IH]; simpl; intros Hnd.
  - split; [constructor|]. split; [exact Hnd|]. intros x [].
  - inversion Hnd as [|? ? Hnot Hrest]; subst.
    destruct (IH Hrest) as (H1 & H2 & Hdis).
    split; [constructor; [|exact H1]|].
    + intros Hin. apply Hnot. apply in_or_app. now left.
    + split; [exact H2|]. intros x [->|Hin] Hx2.
      * apply Hnot. apply in_or_app. now right.
      * exact (Hdis x Hin Hx2).
Qed.

Lemma titles_in_all (db : dict (list Song)) (mood : string) (songs : list Song)
    (s : Song) :
  In (mood, songs) db -> In s songs -> In (title s) (all_titles db).
Proof.
  intros Hin Hs. unfold all_titles. apply in_concat.
  exists (map title songs). split.
  - apply in_map_iff. exists (mood, songs). now split.
  - now apply in_map.
Qed.

(** In a database without a repeated title, a list has no repeated title
    and the lists of two keys share none. *)
Lemma database_titles_apart (db : dict (list Song)) :
  NoDup (all_titles db) ->
  (forall m l, lookup db m = Some l -> NoDup (map title l)) /\
  (forall m1 m2 l1 l2 s1 s2,
     lookup db m1 = Some l1 -> lookup db m2 = Some l2 -> m1 <> m2 ->
     In s1 l1 -> In s2 l2 -> title s1 <> title s2).
Proof.
  induction db as [|[k l] db IH]; intros Hnd.
  - split; intros; discriminate.
  - unfold all_titles in Hnd. cbn [map List.concat snd] in Hnd.
    apply NoDup_app_parts in Hnd. destruct Hnd as (Hl & Hrest & Hdis).
    destruct (IH Hrest) as [IH1 IH2]. split.
    + intros m l0. simpl. destruct (String.eqb m k); [intros [= <-]; exact Hl|].
      apply IH1.
    + intros m1 m2 l1 l2 s1 s2. simpl.
      destruct (String.eqb_spec m1 k) as [->|H1], (String.eqb_spec m2 k) as [->|H2].
      * congruence.
      * intros [= <-] Hl2 _ Hs1 Hs2 Heq.
        apply (Hdis (title s1)); [now apply in_map|].
        rewrite Heq. apply (titles_in_all db m2 l2); [now apply lookup_In | exact Hs2].
      * intros Hl1 [= <-] _ Hs1 Hs2 Heq.
        apply (Hdis (title s2)); [now apply in_map|].
        rewrite <- Heq. apply (titles_in_all db m1 l1); [now apply lookup_In | exact Hs1].
      * apply IH2.
Qed.

Lemma firstn_members {A} (n : nat) (xs : list A) (x : A) :
  In x (firstn n xs) -> In x xs.
Proof.
  intros Hin. rewrite <- (firstn_skipn n xs). apply in_or_app. now left.
Qed.

Lemma slice_to_incl {A} (xs : list A) (limit : Z) (x : A) :
  In x (slice_to xs limit) -> In x xs.
Proof.
  unfold slice_to. destruct (limit <? 0)%Z; apply firstn_members.
Qed.

Lemma slice_to_NoDup {A B} (f : A -> B) (xs : list A) (limit : Z) :
  NoDup (map f xs) -> NoDup (map f (slice_to xs limit)).
Proof.
  intros Hnd. unfold slice_to.
  destruct (limit <? 0)%Z;
    match goal with
    | |- NoDup (map f (firstn ?n xs)) =>
        rewrite <- (firstn_skipn n xs), map_app in Hnd;
        exact (proj1 (NoDup_app_parts _ _ Hnd))
    end.
Qed.

(** X7: no title occurs twice in the catalog, so a list of recommendations
    never has a song twice, and the recommendations for two different moods
    of the catalog never share a song, whatever the limits. *)
Theorem recommendations_distinct (m1 m2 : string) (limit1 limit2 : Z)
    (recs1 recs2 : list Song) :
  get_recommendations m1 limit1 = Some recs1 ->
  get_recommendations m2 limit2 = Some recs2 ->
  NoDup (map title recs1) /\
  (In m1 get_all_moods -> In m2 get_all_moods -> m1 <> m2 ->
   forall s1 s2, In s1 recs1 -> In s2 recs2 -> title s1 <> title s2).
Proof.
  intros H1 H2.
  destruct (database_titles_apart song_database all_titles_distinct) as [Hlist Hapart].
  destruct (get_recommendations_source m1 limit1) as (songs1 & Hsrc1 & _ & Hget1).
  destruct (get_recommendations_source m2 limit2) as (songs2 & Hsrc2 & _ & Hget2).
  rewrite Hget1 in H1. rewrite Hget2 in H2.
  injection H1 as <-. injection H2 as <-. split.
  - apply slice_to_NoDup.
    destruct Hsrc1 as [Hl|[_ Hl]]; exact (Hlist _ _ Hl).
  - intros Hm1 Hm2 Hne s1 s2 Hs1 Hs2.
    apply lookup_in_keys in Hm1. apply lookup_in_keys in Hm2.
    destruct Hsrc1 as [Hl1|[Hnone _]]; [|congruence].
    destruct Hsrc2 as [Hl2|[Hnone _]]; [|congruence].
    apply (Hapart m1 m2 songs1 songs2 s1 s2 Hl1 Hl2 Hne).
    + exact (slice_to_incl _ _ _ Hs1).
    + exact (slice_to_incl _ _ _ Hs2).
Qed.

Lemma recommendations_distinct_witness :
  exists recs1 recs2,
    get_recommendations "happy" 3 = Some recs1 /\
    get_recommendations "sad" (-2) = Some recs2 /\
    NoDup (map title recs1) /\
    forall s1 s2, In s1 recs1 -> In s2 recs2 -> title s1 <> title s2.
Proof.
  do 2 eexists. split; [reflexivity|]. split; [reflexivity|].
  destruct (recommendations_distinct "happy" "sad" 3 (-2) _ _ eq_refl eq_refl)
    as [Hnd Hapart].
  split; [exact Hnd|]. apply Hapart.
  - vm_compute. tauto.
  - vm_compute. tauto.
  - discriminate.
Defined.

(** ** The endpoints of the server *)

Section Endpoints.
Import PyJson ApiServer.

Lemma analyze_and_recommend_result (U : UnicodeData) (text : str) (n : Z) :
  (0 <= n)%Z ->
  exists result songs,
    MoodTuneAPI.analyze_and_recommend U text n = Some result /\
    MoodTuneAPI.user_input result = text /\
    lookup song_database (MoodTuneAPI.detected_mood result) = Some songs /\
    MoodTuneAPI.recommendations result = firstn (Z.to_nat n) songs /\
    Z.of_nat (List.length (MoodTuneAPI.recommendations result)) = Z.min n 5.
Proof.
  intros Hn.
  destruct (detect_emotion_total U text) as (r & Hr & _ & Hin).
  destruct (catalog_of_mood _ Hin) as (songs & Hsongs & _).
  destruct song_database_has_calm as [default Hcalm].
  eexists. exists songs. split.
  - unfold MoodTuneAPI.analyze_and_recommend. rewrite Hr.
    unfold get_recommendations.
    rewrite (get_recommendations_in_known _ _ _ _ _ Hcalm Hsongs). reflexivity.
  - cbn [MoodTuneAPI.user_input MoodTuneAPI.detected_mood MoodTuneAPI.recommendations].
    split; [reflexivity|]. split; [exact Hsongs|].
    split; [apply slice_to_positive; exact Hn|].
    rewrite slice_to_length by exact Hn.
    now rewrite (song_lists_have_five _ _ Hsongs).
Qed.

(** What [analyze_mood] does with an object that has a text. *)
Lemma analyze_mood_object (U : UnicodeData) (items : list (str * json)) (v : json) :
  jlookup items (of_string "text") = Some v ->
  analyze_mood U (Some (JDict items))
  = match as_int (requested_num_songs items) with
    | None => BadRequest "num_songs must be an integer between 1 and 20"
    | Some n =>
        if (n <? 1)%Z || (20 <? n)%Z
        then BadRequest "num_songs must be an integer between 1 and 20"
        else
          match v with
          | JStr text =>
              match MoodTuneAPI.analyze_and_recommend U text n with
              | Some result => Ok result
              | None => InternalError
              end
          | _ => InternalError
          end
    end.
Proof.
  intros Htext. unfold analyze_mood, has, getitem, get.
  assert (Htruthy : truthy (JDict items) = true).
  { destruct items; [discriminate Htext | reflexivity]. }
  rewrite Htruthy, Htext. cbn [negb].
  fold (requested_num_songs items).
  destruct (as_int (requested_num_songs items)) as [n|]; [|reflexivity].
  destruct ((n <? 1)%Z || (20 <? n)%Z); [reflexivity|].
  destruct v; reflexivity.
Qed.

(** X8: a request object whose text is a string and whose [num_songs] is
    absent (then 5) or an integer from 1 to 20 is answered 200 with the result
    of the pipeline for that text: the text is echoed and the recommendations
    are the first [min(num_songs, 5)] songs of the detected mood.  A JSON
    [true] passes the integer check as 1. *)
Theorem analyze_mood_accepts (U : UnicodeData) (items : list (str * json))
    (text : str) (n : Z) :
  accepted_request items text n ->
  exists result songs,
    analyze_mood U (Some (JDict items)) = Ok result /\
    MoodTuneAPI.analyze_and_recommend U text n = Some result /\
    MoodTuneAPI.user_input result = text /\
    lookup song_database (MoodTuneAPI.detected_mood result) = Some songs /\
    MoodTuneAPI.recommendations result = firstn (Z.to_nat n) songs /\
    Z.of_nat (List.length (MoodTuneAPI.recommendations result)) = Z.min n 5.
Proof.
  intros (Htext & Hnum & Hrange).
  destruct (analyze_and_recommend_result U text n) as (result & songs & Hres & Hrest);
    [lia|].
  exists result, songs. split; [|split; [exact Hres | exact Hrest]].
  rewrite (analyze_mood_object U items _ Htext), Hnum.
  destruct (Z.ltb_spec n 1); [lia|]. destruct (Z.ltb_spec 20 n); [lia|].
  cbn [orb]. now rewrite Hres.
Qed.

(** The body [{"text": "feeling great", "num_songs": true}]. *)
Lemma analyze_mood_accepts_witness :
  exists result songs,
    analyze_mood ascii_only
      (Some (JDict [(of_string "text", JStr (of_string "feeling great"));
                    (of_string "num_songs", JBool true)])) = Ok result /\
    MoodTuneAPI.analyze_and_recommend ascii_only (of_string "feeling great") 1
    = Some result /\
    MoodTuneAPI.user_input result = of_string "feeling great" /\
    lookup song_database (MoodTuneAPI.detected_mood result) = Some songs /\
    MoodTuneAPI.recommendations result = firstn (Z.to_nat 1) songs /\
    Z.of_nat (List.length (MoodTuneAPI.recommendations result)) = Z.min 1 5.
Proof.
  apply (analyze_mood_accepts ascii_only).
  split; [reflexivity|]. split; [reflexivity | lia].
Defined.

(** X9: [analyze_mood] answers 200 only to such a request: the body is an
    object, its text is a string, and its [num_songs] is absent or an integer
    (or boolean) from 1 to 20.  A list, a string, a number or a null as body,
    a text that is not a string, a float or a string as [num_songs] never get
    200. *)
Theorem analyze_mood_ok_only_accepted (U : UnicodeData) (body : option json) :
  status_code (analyze_mood U body) = 200%Z ->
  exists items text n, body = Some (JDict items) /\ accepted_request items text n.
Proof.
  destruct body as [data|]; [|discriminate].
  destruct data as [| b | z | x | s | l | items].
  - discriminate.
  - destruct b; discriminate.
  - unfold analyze_mood. destruct (negb (truthy (JInt z))); discriminate.
  - unfold analyze_mood. destruct (negb (truthy (JFloat x))); discriminate.
  - unfold analyze_mood. destruct (negb (truthy (JStr s))); [discriminate|].
    cbn [has getitem]. destruct (contains (of_string "text") s); discriminate.
  - unfold analyze_mood. destruct (negb (truthy (JList l))); [discriminate|].
    cbn [has getitem]. destruct (existsb _ l); discriminate.
  - destruct (jlookup items (of_string "text")) as [v|] eqn:Htext.
    + rewrite (analyze_mood_object U items v Htext).
      destruct (as_int (requested_num_songs items)) as [n|] eqn:Hnum; [|discriminate].
      destruct (Z.ltb_spec n 1); [discriminate|].
      destruct (Z.ltb_spec 20 n); [discriminate|]. cbn [orb].
      destruct v as [| | | | text | |]; try discriminate.
      intros _. exists items, text, n. split; [reflexivity|].
      split; [exact Htext|]. split; [exact Hnum | lia].
    + unfold analyze_mood, has. rewrite Htext.
      destruct (negb (truthy (JDict items))); discriminate.
Qed.

Lemma analyze_mood_ok_only_accepted_witness :
  exists items text n,
    Some (JDict [(of_string "text", JStr (of_string "so calm"))])
    = Some (JDict items) /\
    accepted_request items text n.
Proof.
  apply (analyze_mood_ok_only_accepted ascii_only). vm_compute. reflexivity.
Defined.

(** X10: the text is checked for presence only.  When it is present but not
    a string (a number, a boolean, null, a list, an object), a bad
    [num_songs] is still answered 400, and a good one leads to the 500 of the
    exception handler, not to a 400. *)
Theorem analyze_mood_text_not_a_string (U : UnicodeData)
    (items : list (str * json)) (v : json) :
  jlookup items (of_string "text") = Some v ->
  (forall text, v <> JStr text) ->
  analyze_mood U (Some (JDict items))
  = match as_int (requested_num_songs items) with
    | Some n =>
        if (1 <=? n)%Z && (n <=? 20)%Z then InternalError
        else BadRequest "num_songs must be an integer between 1 and 20"
    | None => BadRequest "num_songs must be an integer between 1 and 20"
    end.
Proof.
  intros Htext Hnot. rewrite (analyze_mood_object U items v Htext).
  destruct (as_int (requested_num_songs items)) as [n|]; [|reflexivity].
  destruct (Z.ltb_spec n 1), (Z.ltb_spec 20 n), (Z.leb_spec 1 n), (Z.leb_spec n 20);
    try lia; cbn [orb andb]; try reflexivity.
  destruct v; try reflexivity. exfalso. now apply (Hnot s).
Qed.

(** The body [{"text": 42}]. *)
Lemma analyze_mood_text_not_a_string_witness :
  analyze_mood ascii_only (Some (JDict [(of_string "text", JInt 42)]))
  = InternalError.
Proof.
  apply (analyze_mood_text_not_a_string ascii_only
           [(of_string "text", JInt 42)] (JInt 42)).
  - reflexivity.
  - discriminate.
Defined.

(** X11: a body that counts as false (null, false, 0, an empty string, list
    or object) and a body that does not contain "text" (an object without the
    key, a list without the element, a string without the substring) are
    answered 400 with the message about the text, whatever else they hold. *)
Theorem analyze_mood_missing_text (U : UnicodeData) (data : json) :
  truthy data = false \/ has data "text" = Some false ->
  analyze_mood U (Some data) = BadRequest "Missing required field: text".
Proof.
  intros [Hfalse|Hhas]; unfold analyze_mood.
  - now rewrite Hfalse.
  - rewrite Hhas. destruct (negb (truthy data)); reflexivity.
Qed.

(** The body [{"num_songs": 500}]. *)
Lemma analyze_mood_missing_text_witness :
  analyze_mood ascii_only (Some (JDict [(of_string "num_songs", JInt 500)]))
  = BadRequest "Missing required field: text".
Proof.
  apply (analyze_mood_missing_text ascii_only). right. reflexivity.
Defined.

Lemma existsb_eqb_In (x : string) (l : list string) :
  existsb (String.eqb x) l = true <-> In x l.
Proof.
  rewrite existsb_exists. split.
  - intros (y & Hin & Heq). apply String.eqb_eq in Heq. now subst.
  - intros Hin. exists x. split; [exact Hin | apply String.eqb_refl].
Qed.

(** X12: [recommend_by_mood] answers 200 for a mood of [get_all_moods] and
    a count from 1 to 20 (5 when the parameter is absent or is not an
    integer), with the first [min(count, 5)] songs of the list of that very
    mood. *)
Theorem recommend_by_mood_ok (mood : string) (num_songs_arg : option Z) :
  In mood get_all_moods ->
  (1 <= used_num_songs num_songs_arg <= 20)%Z ->
  exists songs,
    lookup song_database mood = Some songs /\
    recommend_by_mood mood num_songs_arg
    = Ok (mood, firstn (Z.to_nat (used_num_songs num_songs_arg)) songs) /\
    Z.of_nat (List.length (firstn (Z.to_nat (used_num_songs num_songs_arg)) songs))
    = Z.min (used_num_songs num_songs_arg) 5.
Proof.
  intros Hin Hrange.
  destruct (catalog_of_mood mood Hin) as (songs & Hsongs & _).
  destruct song_database_has_calm as [default Hcalm].
  exists songs. split; [exact Hsongs|]. split.
  - unfold recommend_by_mood. fold (used_num_songs num_songs_arg).
    destruct (Z.ltb_spec (used_num_songs num_songs_arg) 1); [lia|].
    destruct (Z.ltb_spec 20 (used_num_songs num_songs_arg)); [lia|]. cbn [orb].
    rewrite (proj2 (existsb_eqb_In mood get_all_moods) Hin). cbn [negb].
    unfold get_recommendations.
    rewrite (get_recommendations_in_known _ _ _ _ _ Hcalm Hsongs).
    rewrite slice_to_positive by lia. reflexivity.
  - rewrite length_firstn, (song_lists_have_five _ _ Hsongs). lia.
Qed.

Lemma recommend_by_mood_ok_witness :
  exists songs,
    lookup song_database "nostalgic" = Some songs /\
    recommend_by_mood "nostalgic" None
    = Ok ("nostalgic"%string, firstn (Z.to_nat (used_num_songs None)) songs) /\
    Z.of_nat (List.length (firstn (Z.to_nat (used_num_songs None)) songs))
    = Z.min (used_num_songs None) 5.
Proof.
  apply (recommend_by_mood_ok "nostalgic" None).
  - vm_compute. tauto.
  - vm_compute. split; discriminate.
Defined.

(** X13: [recommend_by_mood] never answers 500, and it answers 200 exactly
    for the moods that [get_moods] lists with a count from 1 to 20: the
    fallback of [get_recommendations] to calm cannot be reached through it. *)
Theorem recommend_by_mood_status (mood : string) (num_songs_arg : option Z) :
  status_code (recommend_by_mood mood num_songs_arg) <> 500%Z /\
  (status_code (recommend_by_mood mood num_songs_arg) = 200%Z <->
   (exists moods, get_moods = Ok moods /\ In mood moods) /\
   (1 <= used_num_songs num_songs_arg <= 20)%Z).
Proof.
  unfold recommend_by_mood. fold (used_num_songs num_songs_arg).
  destruct (Z.ltb_spec (used_num_songs num_songs_arg) 1) as [Hlo|Hlo]; cbn [orb].
  { split; [discriminate|]. split; [discriminate | intros [_ H]; lia]. }
  destruct (Z.ltb_spec 20 (used_num_songs num_songs_arg)) as [Hhi|Hhi].
  { split; [discriminate|]. split; [discriminate | intros [_ H]; lia]. }
  destruct (existsb (String.eqb mood) get_all_moods) eqn:Hex; cbn [negb].
  - apply existsb_eqb_In in Hex.
    destruct (catalog_of_mood mood Hex) as (songs & Hsongs & _).
    destruct song_database_has_calm as [default Hcalm].
    unfold get_recommendations.
    rewrite (get_recommendations_in_known _ _ _ _ _ Hcalm Hsongs).
    split; [discriminate|]. split; [|reflexivity].
    intros _. split; [|lia]. exists get_all_moods. now split.
  - split; [discriminate|]. split; [discriminate|].
    intros [(moods & [= <-] & Hin) _].
    apply existsb_eqb_In in Hin. congruence.
Qed.

End Endpoints.

(** ** The Spotify client *)

Section Spotify.
Import PyJson.

(** Inversion of one step of a computation that may raise. *)
Ltac step H :=
  match type of H with
  | match ?e with Some _ => _ | None => None end = Some _ =>
      let x := fresh "x" in
      let E := fresh "E" in
      destruct e as [x|] eqn:E; [|discriminate H]
  end.

Lemma for_each_all {A B} (f : A -> option B) (xs : list A) (ys : list B) :
  for_each f xs = Some ys -> Forall2 (fun x y => f x = Some y) xs ys.
Proof.
  revert ys. induction xs as [|x xs IH]; intros ys H; simpl in H.
  - injection H as <-. constructor.
  - destruct (f x) as [y|] eqn:Hy; [|discriminate].
    destruct (for_each f xs) as [ys'|]; [|discriminate].
    injection H as <-. constructor; [exact Hy | now apply IH].
Qed.

Lemma for_each_one_fails {A B} (f : A -> option B) (xs : list A) (x : A) :
  In x xs -> f x = None -> for_each f xs = None.
Proof.
  induction xs as [|y xs IH]; intros Hin Hx; simpl; [destruct Hin|].
  destruct Hin as [->|Hin].
  - now rewrite Hx.
  - destruct (f y); [|reflexivity]. now rewrite (IH Hin Hx).
Qed.

Lemma mock_recommendations (mood : string) (limit : Z) :
  exists songs,
    get_recommendations mood limit = Some songs /\
    SpotifyAPI._get_mock_recommendations mood limit = Some (SpotifyAPI.Curated songs).
Proof.
  destruct (get_recommendations_source mood limit) as (songs & _ & _ & Hget).
  exists (slice_to songs limit). split; [exact Hget|].
  unfold SpotifyAPI._get_mock_recommendations. now rewrite Hget.
Qed.

Lemma authenticate_without_credentials (net : SpotifyAPI.Network)
    (c : SpotifyAPI.Client) :
  SpotifyAPI.not_str (SpotifyAPI.client_id c)
  || SpotifyAPI.not_str (SpotifyAPI.client_secret c) = true ->
  SpotifyAPI.authenticate net c = (false, c).
Proof. intros H. unfold SpotifyAPI.authenticate. now rewrite H. Qed.

Lemma authenticate_keeps_credentials (net : SpotifyAPI.Network)
    (c : SpotifyAPI.Client) :
  SpotifyAPI.client_id (snd (SpotifyAPI.authenticate net c)) = SpotifyAPI.client_id c /\
  SpotifyAPI.client_secret (snd (SpotifyAPI.authenticate net c))
  = SpotifyAPI.client_secret c.
Proof.
  unfold SpotifyAPI.authenticate.
  destruct (SpotifyAPI.not_str (SpotifyAPI.client_id c)
            || SpotifyAPI.not_str (SpotifyAPI.client_secret c)); [now split|].
  destruct (SpotifyAPI.client_id c) as [id|] eqn:Hid; [|now split].
  destruct (SpotifyAPI.client_secret c) as [secret|] eqn:Hsecret; [|now split].
  destruct (SpotifyAPI.post_token net id secret) as [token_data|]; [|now split].
  destruct (getitem token_data "access_token"); now split.
Qed.

(** X14: a client without a token whose id or secret is missing or empty
    gets from [get_recommendations] exactly the songs of
    [MusicRecommender.get_recommendations] for the same mood and limit,
    whatever the network would answer, and is left as it was. *)
Theorem spotify_without_credentials (net : SpotifyAPI.Network)
    (c : SpotifyAPI.Client) (mood : string) (limit : Z) :
  truthy (SpotifyAPI.access_token c) = false ->
  SpotifyAPI.not_str (SpotifyAPI.client_id c)
  || SpotifyAPI.not_str (SpotifyAPI.client_secret c) = true ->
  exists songs,
    get_recommendations mood limit = Some songs /\
    SpotifyAPI.get_recommendations net c mood limit
    = Some (c, SpotifyAPI.Curated songs).
Proof.
  intros Htoken Hcred.
  destruct (mock_recommendations mood limit) as (songs & Hsongs & Hmock).
  exists songs. split; [exact Hsongs|].
  unfold SpotifyAPI.get_recommendations.
  rewrite Htoken. cbn [negb].
  rewrite (authenticate_without_credentials net c Hcred). cbn [negb].
  now rewrite Hmock.
Qed.

(** A network that answers every request, and a client with an id only. *)
Lemma spotify_without_credentials_witness :
  exists songs,
    get_recommendations "angry" 2 = Some songs /\
    SpotifyAPI.get_recommendations
      (SpotifyAPI.mkNetwork (fun _ _ => Some (JDict [])) (fun _ _ => Some (JDict []))
         (fun _ _ => Some (JDict [])))
      (SpotifyAPI.mkClient (Some (of_string "my-id")) None JNull) "angry" 2
    = Some (SpotifyAPI.mkClient (Some (of_string "my-id")) None JNull,
            SpotifyAPI.Curated songs).
Proof.
  apply (spotify_without_credentials _
           (SpotifyAPI.mkClient (Some (of_string "my-id")) None JNull));
    reflexivity.
Defined.

(** X15: [get_recommendations] of the client never raises and keeps the
    credentials: it returns the tracks formatted from the answer of Spotify,
    or else exactly the songs of [MusicRecommender.get_recommendations] for
    the same mood and limit. *)
Theorem spotify_recommendations_or_curated (net : SpotifyAPI.Network)
    (c : SpotifyAPI.Client) (mood : string) (limit : Z) :
  exists c' result,
    SpotifyAPI.get_recommendations net c mood limit = Some (c', result) /\
    SpotifyAPI.client_id c' = SpotifyAPI.client_id c /\
    SpotifyAPI.client_secret c' = SpotifyAPI.client_secret c /\
    ((exists tracks,
        result = SpotifyAPI.FromSpotify tracks /\
        SpotifyAPI.fetch_recommendations net (SpotifyAPI.access_token c') mood limit
        = Some tracks) \/
     (exists songs,
        result = SpotifyAPI.Curated songs /\
        get_recommendations mood limit = Some songs)).
Proof.
  destruct (mock_recommendations mood limit) as (songs & Hsongs & Hmock).
  unfold SpotifyAPI.get_recommendations.
  assert (Hauth : exists ok c',
            (if negb (truthy (SpotifyAPI.access_token c))
             then SpotifyAPI.authenticate net c else (true, c)) = (ok, c') /\
            SpotifyAPI.client_id c' = SpotifyAPI.client_id c /\
            SpotifyAPI.client_secret c' = SpotifyAPI.client_secret c).
  { destruct (negb (truthy (SpotifyAPI.access_token c))); [|now exists true, c].
    destruct (authenticate_keeps_credentials net c) as [Hid Hsecret].
    destruct (SpotifyAPI.authenticate net c) as [ok c']. now exists ok, c'. }
  destruct Hauth as (ok & c' & -> & Hid & Hsecret).
  destruct ok; cbn [negb].
  - destruct (SpotifyAPI.fetch_recommendations net (SpotifyAPI.access_token c') mood limit)
      as [tracks|] eqn:Hfetch.
    + exists c', (SpotifyAPI.FromSpotify tracks).
      split; [reflexivity|]. split; [exact Hid|]. split; [exact Hsecret|].
      left. now exists tracks.
    + rewrite Hmock. exists c', (SpotifyAPI.Curated songs).
      split; [reflexivity|]. split; [exact Hid|]. split; [exact Hsecret|].
      right. now exists songs.
  - rewrite Hmock. exists c', (SpotifyAPI.Curated songs).
    split; [reflexivity|]. split; [exact Hid|]. split; [exact Hsecret|].
    right. now exists songs.
Qed.

Lemma format_track_title (track : json) (t : SpotifyAPI.Track) :
  SpotifyAPI.format_track track = Some t ->
  getitem track "name" = Some (SpotifyAPI.title t).
Proof.
  unfold SpotifyAPI.format_track. intros H.
  repeat step H. injection H as <-. reflexivity.
Qed.

(** X16: the tracks of Spotify are all or nothing: when the request and
    the formatting succeed, the answer is an object, and the result has one
    formatted track for each element of its ['tracks'], in the same order,
    with the element's ['name'] as title. *)
Theorem spotify_tracks_one_per_item (net : SpotifyAPI.Network) (token : json)
    (mood : string) (limit : Z) (tracks : list SpotifyAPI.Track) :
  SpotifyAPI.fetch_recommendations net token mood limit = Some tracks ->
  exists params data listed items,
    SpotifyAPI.recommendation_params mood limit = Some params /\
    SpotifyAPI.get_recommendations_json net token params = Some data /\
    get data "tracks" (JList []) = Some listed /\
    iterate listed = Some items /\
    List.length tracks = List.length items /\
    Forall2 (fun item track =>
               SpotifyAPI.format_track item = Some track /\
               getitem item "name" = Some (SpotifyAPI.title track))
            items tracks.
Proof.
  unfold SpotifyAPI.fetch_recommendations. intros H.
  destruct (SpotifyAPI.recommendation_params mood limit) as [params|] eqn:Hparams;
    [|discriminate].
  destruct (SpotifyAPI.get_recommendations_json net token params) as [data|] eqn:Hdata;
    [|discriminate].
  destruct (get data "tracks" (JList [])) as [listed|] eqn:Hlisted; [|discriminate].
  destruct (iterate listed) as [items|] eqn:Hitems; [|discriminate].
  apply for_each_all in H.
  exists params, data, listed, items.
  split; [reflexivity|]. split; [exact Hdata|]. split; [exact Hlisted|].
  split; [exact Hitems|]. split.
  - symmetry. eapply Forall2_length. exact H.
  - eapply Forall2_impl; [|exact H]. intros item track Hfmt.
    split; [exact Hfmt | now apply format_track_title].
Qed.

Lemma spotify_tracks_one_per_item_witness :
  exists tracks params data listed items,
    SpotifyAPI.fetch_recommendations (network_with [sample_track; sample_track])
      (JStr (of_string "t0")) "happy" 2 = Some tracks /\
    SpotifyAPI.recommendation_params "happy" 2 = Some params /\
    SpotifyAPI.get_recommendations_json (network_with [sample_track; sample_track])
      (JStr (of_string "t0")) params = Some data /\
    get data "tracks" (JList []) = Some listed /\
    iterate listed = Some items /\
    List.length tracks = List.length items /\
    Forall2 (fun item track =>
               SpotifyAPI.format_track item = Some track /\
               getitem item "name" = Some (SpotifyAPI.title track))
            items tracks.
Proof.
  eexists.
  destruct (spotify_tracks_one_per_item (network_with [sample_track; sample_track])
              (JStr (of_string "t0")) "happy" 2 _ eq_refl)
    as (params & data & listed & items & H).
  exists params, data, listed, items. split; [reflexivity | exact H].
Defined.

(** X17: one element of ['tracks'] that cannot be formatted (a missing
    ['name'], an artist that is not an object, ...) loses all the tracks of
    Spotify: the call returns the curated songs instead. *)
Theorem spotify_one_bad_track (net : SpotifyAPI.Network) (c : SpotifyAPI.Client)
    (mood : string) (limit : Z) (params : SpotifyAPI.RecommendationParams)
    (data listed : json) (items : list json) (bad : json) :
  truthy (SpotifyAPI.access_token c) = true ->
  SpotifyAPI.recommendation_params mood limit = Some params ->
  SpotifyAPI.get_recommendations_json net (SpotifyAPI.access_token c) params
  = Some data ->
  get data "tracks" (JList []) = Some listed ->
  iterate listed = Some items ->
  In bad items ->
  SpotifyAPI.format_track bad = None ->
  exists songs,
    get_recommendations mood limit = Some songs /\
    SpotifyAPI.get_recommendations net c mood limit
    = Some (c, SpotifyAPI.Curated songs).
Proof.
  intros Htoken Hparams Hdata Hlisted Hitems Hin Hbad.
  destruct (mock_recommendations mood limit) as (songs & Hsongs & Hmock).
  exists songs. split; [exact Hsongs|].
  unfold SpotifyAPI.get_recommendations. rewrite Htoken. cbn [negb].
  unfold SpotifyAPI.fetch_recommendations.
  rewrite Hparams, Hdata, Hlisted, Hitems.
  rewrite (for_each_one_fails _ _ _ Hin Hbad). now rewrite Hmock.
Qed.

(** A good track followed by a number. *)
Lemma spotify_one_bad_track_witness :
  exists songs,
    get_recommendations "happy" 2 = Some songs /\
    SpotifyAPI.get_recommendations (network_with [sample_track; JInt 7])
      (SpotifyAPI.mkClient None None (JStr (of_string "t0"))) "happy" 2
    = Some (SpotifyAPI.mkClient None None (JStr (of_string "t0")),
            SpotifyAPI.Curated songs).
Proof.
  eapply (spotify_one_bad_track (network_with [sample_track; JInt 7])
            (SpotifyAPI.mkClient None None (JStr (of_string "t0"))) "happy" 2
            _ _ _ _ (JInt 7)).
  - reflexivity.
  - reflexivity.
  - reflexivity.
  - reflexivity.
  - reflexivity.
  - right. left. reflexivity.
  - reflexivity.
Defined.

(** X18: what [format_track] does with the optional parts of a track it
    formats: the album is an object; the year is the first four characters of
    a release date that is a string, and "N/A" when the album has no release
    date or an empty one; the album art is [None] when the list of images is
    empty; the preview URL is [None] when the track has none. *)
Theorem format_track_optional_fields (track : json) (t : SpotifyAPI.Track) :
  SpotifyAPI.format_track track = Some t ->
  exists track_items album_items images,
    track = JDict track_items /\
    getitem track "album" = Some (JDict album_items) /\
    jlookup album_items (of_string "images") = Some images /\
    (forall date, jlookup album_items (of_string "release_date") = Some (JStr date) ->
                  date <> [] -> SpotifyAPI.year t = JStr (firstn 4 date)) /\
    (forall date, jlookup album_items (of_string "release_date") = Some date ->
                  truthy date = false -> SpotifyAPI.year t = JStr (of_string "N/A")) /\
    (jlookup album_items (of_string "release_date") = None ->
     SpotifyAPI.year t = JStr (of_string "N/A")) /\
    (truthy images = false -> SpotifyAPI.album_art t = JNull) /\
    (jlookup track_items (of_string "preview_url") = None ->
     SpotifyAPI.preview_url t = JNull).
Proof.
  unfold SpotifyAPI.format_track. intros H.
  destruct (getitem track "name") as [name|] eqn:Hname; [|discriminate].
  destruct (SpotifyAPI.artist_names track) as [artist|]; [|discriminate].
  destruct (getitem track "album") as [track_album|] eqn:Halbum; [|discriminate].
  destruct (getitem track_album "name") as [album_name|] eqn:Haname; [|discriminate].
  destruct track as [| | | | | | track_items]; try discriminate.
  destruct track_album as [| | | | | | album_items]; try discriminate.
  cbn [get getitem] in H.
  destruct (if truthy match jlookup album_items (of_string "release_date") with
                      | Some x => x
                      | None => JNull
                      end
            then match jlookup album_items (of_string "release_date") with
                 | Some date => slice date 4
                 | None => None
                 end
            else Some (JStr (of_string "N/A"))) as [y|] eqn:Hyear; [|discriminate].
  destruct (jlookup track_items (of_string "external_urls")) as [urls|];
    [|discriminate].
  destruct (getitem urls "spotify") as [url|]; [|discriminate].
  destruct (jlookup album_items (of_string "images")) as [images|] eqn:Himages;
    [|discriminate].
  destruct (if truthy images
            then match first_item images with
                 | Some image => getitem image "url"
                 | None => None
                 end
            else Some JNull) as [art|] eqn:Hart; [|discriminate].
  destruct (jlookup track_items (of_string "duration_ms")); [|discriminate].
  destruct (jlookup track_items (of_string "popularity")); [|discriminate].
  injection H as <-.
  cbn [SpotifyAPI.year SpotifyAPI.album_art SpotifyAPI.preview_url].
  exists track_items, album_items, images.
  split; [reflexivity|]. split; [reflexivity|]. split; [exact Himages|].
  split; [|split; [|split; [|split]]].
  - intros date Hdate Hne. rewrite Hdate in Hyear.
    destruct date; [congruence|]. cbn [truthy List.length Nat.eqb negb slice] in Hyear.
    now injection Hyear as <-.
  - intros date Hdate Hfalse. rewrite Hdate, Hfalse in Hyear.
    now injection Hyear as <-.
  - intros Hnone. rewrite Hnone in Hyear. cbn [truthy] in Hyear.
    now injection Hyear as <-.
  - intros Hempty. rewrite Hempty in Hart. now injection Hart as <-.
  - intros Hnone. now rewrite Hnone.
Qed.

Lemma format_track_optional_fields_witness :
  exists t,
    SpotifyAPI.format_track sample_track = Some t /\
    SpotifyAPI.year t = JStr (of_string "1982") /\
    SpotifyAPI.album_art t = JNull /\
    SpotifyAPI.preview_url t = JNull /\
    SpotifyAPI.artist t = of_string "Queen, David Bowie".
Proof.
  eexists. split; [reflexivity|].
  destruct (format_track_optional_fields sample_track _ eq_refl)
    as (track_items & album_items & images & Htrack & Halbum & Himages
        & Hyear & _ & _ & Hart & Hpreview).
  injection Htrack as <-. injection Halbum as <-. injection Himages as <-.
  split; [apply (Hyear (of_string "1982-05-21")); [reflexivity | discriminate]|].
  split; [apply Hart; reflexivity|].
  split; [apply Hpreview; reflexivity | reflexivity].
Defined.

Lemma mood_features_keys : keys SpotifyAPI.mood_features = mood_order.
Proof. reflexivity. Qed.

Lemma mood_features_shape :
  Forall (fun item =>
            exists g1 g2 g3,
              SpotifyAPI.seed_genres (snd item) = [g1; g2; g3] /\
              PrimFloat.leb 0 (SpotifyAPI.target_valence (snd item)) = true /\
              PrimFloat.leb (SpotifyAPI.target_valence (snd item)) 1 = true /\
              PrimFloat.leb 0 (SpotifyAPI.target_energy (snd item)) = true /\
              PrimFloat.leb (SpotifyAPI.target_energy (snd item)) 1 = true)
         SpotifyAPI.mood_features.
Proof.
  unfold SpotifyAPI.mood_features.
  repeat (constructor;
          [do 3 eexists; split; [reflexivity|]; repeat split; vm_compute; reflexivity|]).
  constructor.
Qed.

Lemma mood_features_has_calm :
  exists default, lookup SpotifyAPI.mood_features "calm" = Some default.
Proof. eexists. reflexivity. Qed.

(** X19: the request for recommendations is built for every mood and limit:
    its seed genres are the first two of the three genres of the mood,
    joined by a comma, its targets are the valence and energy of the mood,
    both between 0 and 1, and its limit is the limit asked; a mood that is
    not in [mood_features] gets the parameters of calm. *)
Theorem recommendation_params_shape (mood : string) (limit : Z) :
  exists params features g1 g2 g3,
    SpotifyAPI.recommendation_params mood limit = Some params /\
    (lookup SpotifyAPI.mood_features mood = Some features \/
     lookup SpotifyAPI.mood_features mood = None /\
     lookup SpotifyAPI.mood_features "calm" = Some features) /\
    SpotifyAPI.seed_genres features = [g1; g2; g3] /\
    SpotifyAPI.param_seed_genres params = String.append g1 (String.append "," g2) /\
    SpotifyAPI.param_target_valence params = SpotifyAPI.target_valence features /\
    SpotifyAPI.param_target_energy params = SpotifyAPI.target_energy features /\
    SpotifyAPI.param_limit params = limit /\
    PrimFloat.leb 0 (SpotifyAPI.param_target_valence params) = true /\
    PrimFloat.leb (SpotifyAPI.param_target_valence params) 1 = true /\
    PrimFloat.leb 0 (SpotifyAPI.param_target_energy params) = true /\
    PrimFloat.leb (SpotifyAPI.param_target_energy params) 1 = true.
Proof.
  destruct mood_features_has_calm as [default Hcalm].
  assert (Hsrc : exists features,
            (lookup SpotifyAPI.mood_features mood = Some features \/
             lookup SpotifyAPI.mood_features mood = None /\
             lookup SpotifyAPI.mood_features "calm" = Some features) /\
            PyDict.get SpotifyAPI.mood_features mood default = features /\
            exists key, In (key, features) SpotifyAPI.mood_features).
  { unfold PyDict.get.
    destruct (lookup SpotifyAPI.mood_features mood) as [features|] eqn:Hmood.
    - exists features. split; [now left|]. split; [reflexivity|].
      exists mood. now apply lookup_In.
    - exists default. split; [right; now split|]. split; [reflexivity|].
      exists "calm"%string. now apply lookup_In. }
  destruct Hsrc as (features & Hsrc & Hget & key & Hin).
  pose proof mood_features_shape as Hshape. rewrite Forall_forall in Hshape.
  destruct (Hshape _ Hin) as (g1 & g2 & g3 & Hgenres & Hv0 & Hv1 & He0 & He1).
  cbn [snd] in *.
  eexists. exists features, g1, g2, g3. split.
  - unfold SpotifyAPI.recommendation_params. rewrite Hcalm, Hget. reflexivity.
  - cbn [SpotifyAPI.param_seed_genres SpotifyAPI.param_target_valence
           SpotifyAPI.param_target_energy SpotifyAPI.param_limit].
    split; [exact Hsrc|]. split; [exact Hgenres|].
    split; [rewrite Hgenres; reflexivity|].
    repeat (split; [first [reflexivity | assumption]|]). assumption.
Qed.

(** X20: the three tables agree on the moods: whatever [detect_emotion]
    returns for a text is a key of [mood_features], so the request built for
    a detected mood carries the targets of that mood and never those of the
    calm default by fallback. *)
Theorem detected_mood_has_features (U : UnicodeData) (text : str) (limit : Z) :
  exists r features params,
    detect_emotion U text = Some r /\
    keys SpotifyAPI.mood_features = keys emotion_keywords /\
    lookup SpotifyAPI.mood_features (emotion r) = Some features /\
    SpotifyAPI.recommendation_params (emotion r) limit = Some params /\
    SpotifyAPI.param_target_valence params = SpotifyAPI.target_valence features /\
    SpotifyAPI.param_target_energy params = SpotifyAPI.target_energy features.
Proof.
  destruct (detect_emotion_total U text) as (r & Hr & _ & Hin).
  destruct mood_features_has_calm as [default Hcalm].
  assert (Hfeat : exists features,
            lookup SpotifyAPI.mood_features (emotion r) = Some features).
  { rewrite <- mood_features_keys in Hin. apply lookup_in_keys in Hin.
    destruct (lookup SpotifyAPI.mood_features (emotion r)) as [features|];
      [now exists features | congruence]. }
  destruct Hfeat as [features Hfeat].
  exists r, features. eexists. split; [exact Hr|]. split; [reflexivity|].
  split; [exact Hfeat|].
  unfold SpotifyAPI.recommendation_params, PyDict.get. rewrite Hcalm, Hfeat.
  split; [reflexivity|]. split; reflexivity.
Qed.

Lemma fetch_recommendations_same_answers (net net' : SpotifyAPI.Network)
    (token : json) (mood : string) (limit : Z) :
  SpotifyAPI.get_recommendations_json net = SpotifyAPI.get_recommendations_json net' ->
  SpotifyAPI.fetch_recommendations net token mood limit
  = SpotifyAPI.fetch_recommendations net' token mood limit.
Proof.
  intros Hsame. unfold SpotifyAPI.fetch_recommendations. now rewrite Hsame.
Qed.

Lemma get_recommendations_with_token (net : SpotifyAPI.Network)
    (c : SpotifyAPI.Client) (mood : string) (limit : Z) :
  truthy (SpotifyAPI.access_token c) = true ->
  SpotifyAPI.get_recommendations net c mood limit
  = match SpotifyAPI.fetch_recommendations net (SpotifyAPI.access_token c) mood limit with
    | Some tracks => Some (c, SpotifyAPI.FromSpotify tracks)
    | None =>
        match SpotifyAPI._get_mock_recommendations mood limit with
        | Some mock => Some (c, mock)
        | None => None
        end
    end.
Proof.
  intros Htoken. unfold SpotifyAPI.get_recommendations.
  rewrite Htoken. reflexivity.
Qed.

(** X21: a client that holds a token does not ask for another and does not
    look at its credentials: with a token that counts as true,
    [get_recommendations] leaves the client as it was and returns the tracks
    fetched with that token, or the curated songs when fetching fails; two
    clients with the same token get the same result, whatever their
    credentials are and whatever the token request would answer. *)
Theorem spotify_token_is_reused (net net' : SpotifyAPI.Network)
    (c c' : SpotifyAPI.Client) (mood : string) (limit : Z) :
  truthy (SpotifyAPI.access_token c) = true ->
  SpotifyAPI.access_token c' = SpotifyAPI.access_token c ->
  SpotifyAPI.get_recommendations_json net = SpotifyAPI.get_recommendations_json net' ->
  exists result,
    SpotifyAPI.get_recommendations net c mood limit = Some (c, result) /\
    SpotifyAPI.get_recommendations net' c' mood limit = Some (c', result) /\
    ((exists tracks,
        SpotifyAPI.fetch_recommendations net (SpotifyAPI.access_token c) mood limit
        = Some tracks /\
        result = SpotifyAPI.FromSpotify tracks) \/
     (exists songs,
        SpotifyAPI.fetch_recommendations net (SpotifyAPI.access_token c) mood limit
        = None /\
        get_recommendations mood limit = Some songs /\
        result = SpotifyAPI.Curated songs)).
Proof.
  intros Htoken Hequal Hsame.
  assert (Htoken' : truthy (SpotifyAPI.access_token c') = true) by now rewrite Hequal.
  destruct (mock_recommendations mood limit) as (songs & Hsongs & Hmock).
  rewrite (get_recommendations_with_token net c mood limit Htoken).
  rewrite (get_recommendations_with_token net' c' mood limit Htoken').
  rewrite Hequal, <- (fetch_recommendations_same_answers net net' _ mood limit Hsame).
  destruct (SpotifyAPI.fetch_recommendations net (SpotifyAPI.access_token c) mood limit)
    as [tracks|].
  - exists (SpotifyAPI.FromSpotify tracks).
    split; [reflexivity|]. split; [reflexivity|]. left. now exists tracks.
  - rewrite Hmock. exists (SpotifyAPI.Curated songs).
    split; [reflexivity|]. split; [reflexivity|]. right. now exists songs.
Qed.

(** Two clients with the token ["old"], one without credentials and one with
    them, and two networks that differ in the token request. *)
Lemma spotify_token_is_reused_witness :
  exists result,
    SpotifyAPI.get_recommendations (network_with [sample_track])
      (SpotifyAPI.mkClient None None (JStr (of_string "old"))) "sad" 1
    = Some (SpotifyAPI.mkClient None None (JStr (of_string "old")), result) /\
    SpotifyAPI.get_recommendations
      (SpotifyAPI.mkNetwork (fun _ _ => None)
         (SpotifyAPI.get_recommendations_json (network_with [sample_track]))
         (fun _ _ => None))
      (SpotifyAPI.mkClient (Some (of_string "id")) (Some (of_string "secret"))
         (JStr (of_string "old"))) "sad" 1
    = Some (SpotifyAPI.mkClient (Some (of_string "id")) (Some (of_string "secret"))
              (JStr (of_string "old")), result) /\
    exists tracks, result = SpotifyAPI.FromSpotify tracks /\ List.length tracks = 1%nat.
Proof.
  destruct (spotify_token_is_reused (network_with [sample_track])
              (SpotifyAPI.mkNetwork (fun _ _ => None)
                 (SpotifyAPI.get_recommendations_json (network_with [sample_track]))
                 (fun _ _ => None))
              (SpotifyAPI.mkClient None None (JStr (of_string "old")))
              (SpotifyAPI.mkClient (Some (of_string "id")) (Some (of_string "secret"))
                 (JStr (of_string "old")))
              "sad" 1 eq_refl eq_refl eq_refl)
    as (result & H1 & H2 & Hkind).
  exists result. split; [exact H1|]. split; [exact H2|].
  vm_compute in H1. injection H1 as <-. eexists. split; reflexivity.
Defined.

(** X22: [authenticate] changes nothing but the token, and the token only
    when it succeeds: a failure leaves the client as it was; a success needs
    a non-empty id and secret and a token answer that is an object with the
    key ['access_token'], whose value becomes the token. *)
Theorem authenticate_outcome (net : SpotifyAPI.Network) (c : SpotifyAPI.Client) :
  SpotifyAPI.client_id (snd (SpotifyAPI.authenticate net c)) = SpotifyAPI.client_id c /\
  SpotifyAPI.client_secret (snd (SpotifyAPI.authenticate net c))
  = SpotifyAPI.client_secret c /\
  (fst (SpotifyAPI.authenticate net c) = false ->
   snd (SpotifyAPI.authenticate net c) = c) /\
  (fst (SpotifyAPI.authenticate net c) = true ->
   exists id secret token_data,
     SpotifyAPI.client_id c = Some id /\ id <> [] /\
     SpotifyAPI.client_secret c = Some secret /\ secret <> [] /\
     SpotifyAPI.post_token net id secret = Some token_data /\
     getitem token_data "access_token"
     = Some (SpotifyAPI.access_token (snd (SpotifyAPI.authenticate net c)))).
Proof.
  destruct (authenticate_keeps_credentials net c) as [Hid Hsecret].
  split; [exact Hid|]. split; [exact Hsecret|].
  unfold SpotifyAPI.authenticate.
  destruct (SpotifyAPI.not_str (SpotifyAPI.client_id c)
            || SpotifyAPI.not_str (SpotifyAPI.client_secret c)) eqn:Hnot;
    [split; [reflexivity | discriminate]|].
  apply orb_false_iff in Hnot. destruct Hnot as [Hnid Hnsecret].
  destruct (SpotifyAPI.client_id c) as [id|]; [|discriminate Hnid].
  destruct (SpotifyAPI.client_secret c) as [secret|]; [|discriminate Hnsecret].
  destruct (SpotifyAPI.post_token net id secret) as [token_data|] eqn:Hpost;
    [|split; [reflexivity | discriminate]].
  destruct (getitem token_data "access_token") as [token|] eqn:Htoken;
    [|split; [reflexivity | discriminate]].
  cbn [fst snd SpotifyAPI.access_token]. split; [discriminate|].
  intros _. exists id, secret, token_data.
  split; [reflexivity|]. split; [intros ->; discriminate Hnid|].
  split; [reflexivity|]. split; [intros ->; discriminate Hnsecret|].
  split; [exact Hpost | exact Htoken].
Qed.

(** X23: [search_track] of a client without a token and without usable
    credentials returns no track and leaves the client as it was, whatever
    the network would answer. *)
Theorem search_without_credentials (net : SpotifyAPI.Network)
    (c : SpotifyAPI.Client) (query : str) (limit : Z) :
  truthy (SpotifyAPI.access_token c) = false ->
  SpotifyAPI.not_str (SpotifyAPI.client_id c)
  || SpotifyAPI.not_str (SpotifyAPI.client_secret c) = true ->
  SpotifyAPI.search_track net c query limit = (c, []).
Proof.
  intros Htoken Hcred. unfold SpotifyAPI.search_track.
  rewrite Htoken. cbn [negb].
  now rewrite (authenticate_without_credentials net c Hcred).
Qed.

Lemma search_without_credentials_witness :
  SpotifyAPI.search_track (network_with [sample_track])
    (SpotifyAPI.mkClient (Some (of_string "")) (Some (of_string "secret")) JNull)
    (of_string "bohemian") 5
  = (SpotifyAPI.mkClient (Some (of_string "")) (Some (of_string "secret")) JNull, []).
Proof.
  apply (search_without_credentials (network_with [sample_track])); reflexivity.
Defined.

End Spotify.
